(** * Commute Dashboard: transit-arrivals normalisation and aggregation

    A shallow embedding of the arrival pipeline of the Commute Dashboard
    (server.js, api.js, app.js): the GTFS-Realtime decode loop of the G-line
    endpoint, the client-side normalisation of JSON arrival entries, the
    per-station merge across N-line platforms, the status label of the
    "Your Station" panel, the drive-time fallback and the track-position
    mapping of live vehicles; further on, the weather and vehicle calls of
    the client, the quick view of all stations, the stored preferences, and
    the G-line path from the feed to the client's arrival list.

    Conventions.  A JavaScript property that may be missing is an [option];
    [None] stands for a property that is absent ([undefined]; also [null]
    where the code only tests the value for truthiness).  Epoch times are
    integers ([Z]), in seconds unless a name says milliseconds; a time that
    may be [NaN] is an [option], [None] being [NaN], and arithmetic on times
    is exact.  The coordinates, distances and positions of the track mapping
    are IEEE 754 doubles, as in the program: they overflow to [Infinity] and
    turn into [NaN] where the program's numbers do.  Every call of
    [Date.now()] is a reading of its own. *)

From Stdlib Require Import ZArith List String Bool Lia Permutation Sorted.
From Stdlib Require Import QArith Qround.
From Stdlib Require Import Floats.
From Stdlib Require Lqa.
Import ListNotations.

#[local] Set Warnings "-inexact-float".

Local Open Scope Z_scope.

(* ================================================================== *)
(** ** JavaScript primitives used by the dashboard                     *)
(* ================================================================== *)

Module Js.

(** [ToBoolean] of a possibly missing number: [undefined] and [0] are
    falsy. *)
Definition truthy_num (v : option Z) : bool :=
  match v with
  | Some n => negb (n =? 0)
  | None => false
  end.

(** [ToBoolean] of a possibly missing string: [undefined] and the empty
    string are falsy. *)
Definition truthy_str (v : option string) : bool :=
  match v with
  | Some s => negb (String.eqb s EmptyString)
  | None => false
  end.

(** [a || b] on possibly missing numbers and strings. *)
Definition or_num (a b : option Z) : option Z :=
  if truthy_num a then a else b.

Definition or_str (a b : option string) : option string :=
  if truthy_str a then a else b.

(** [Math.round(n / d)] for a positive [d]: the nearest integer, halves
    rounded towards plus infinity, that is [floor (n/d + 1/2)]. *)
Definition Math_round_div (n d : Z) : Z := (2 * n + d) / (2 * d).

(** [Math.round(q)] for a rational [q]. *)
Definition Math_round (q : Q) : Z := Qfloor (q + (1 # 2))%Q.

(** [arr.push(x)] and [arr.push(...xs)]. *)
Definition push {A : Type} (arr : list A) (x : A) : list A := arr ++ [x].
Definition push_all {A : Type} (arr xs : list A) : list A := arr ++ xs.

(** [arr.slice(0, k)]. *)
Definition slice0 {A : Type} (k : nat) (arr : list A) : list A := firstn k arr.

(** [arr.sort(comparefn)].  The sort of ECMAScript is stable; it is modelled
    by a stable insertion sort.  [after a b] is the test [comparefn(a, b) > 0]
    (a [NaN] result of [comparefn] counts as [0], hence as [false]).  Where
    [comparefn] is a consistent order every stable sort returns this list;
    where it is not (differences that are [NaN]) ECMAScript leaves the order
    to the implementation, and the facts below that cover such inputs speak
    of the result up to permutation only. *)
Section Sort.
Context {A : Type}.
Variable after : A -> A -> bool.

Fixpoint insert (x : A) (l : list A) : list A :=
  match l with
  | [] => [x]
  | y :: l' => if after x y then y :: insert x l' else x :: l
  end.

Definition sort (l : list A) : list A := fold_right insert [] l.
End Sort.

End Js.

(* ================================================================== *)
(** ** The GTFS-Realtime feed (gtfs-realtime-bindings)                  *)
(* ================================================================== *)

Module Gtfs.

(** *** The decoded message, as the handler reads it *)

(** The value of a 64-bit field: a plain number, or a [Long] object.  An
    object is always truthy; a number is truthy unless zero. *)
Inductive Int64 : Type :=
| JsNum (n : Z)
| JsLong (n : Z).

Definition truthy (v : option Int64) : bool :=
  match v with
  | Some (JsNum n) => negb (n =? 0)
  | Some (JsLong _) => true
  | None => false
  end.

(** [Number(v)] on a value the guard has let through. *)
Definition Number (v : Int64) : Z :=
  match v with
  | JsNum n => n
  | JsLong n => n
  end.

Record TripDescriptor : Type := {
  tripId : string;
  routeId : string;
  directionId : option Z
}.

Record StopTimeEvent : Type := {
  time : option Int64
}.

Record StopTimeUpdate : Type := {
  stopId : string;
  arrival : option StopTimeEvent;
  departure : option StopTimeEvent
}.

Record TripUpdate : Type := {
  trip : TripDescriptor;
  stopTimeUpdate : option (list StopTimeUpdate)
}.

Record FeedEntity : Type := {
  tripUpdate : option TripUpdate
}.

Record FeedHeader : Type := {
  timestamp : Int64
}.

Record FeedMessage : Type := {
  header : FeedHeader;
  entity : list FeedEntity
}.

(** *** The message inside the payload

    What the bytes of [TripUpdate.pb] say, field by field: in the proto2
    schema of GTFS-Realtime every scalar field may be left out of the
    message, [trip] is required and [stop_time_update] is repeated. *)
Module Wire.

Record StopTimeEvent : Type := {
  delay : option Z;
  time : option Z;
  uncertainty : option Z
}.

Record StopTimeUpdate : Type := {
  stop_sequence : option Z;
  stop_id : option string;
  arrival : option StopTimeEvent;
  departure : option StopTimeEvent
}.

Record TripDescriptor : Type := {
  trip_id : option string;
  route_id : option string;
  direction_id : option Z
}.

Record TripUpdate : Type := {
  trip : TripDescriptor;
  stop_time_update : list StopTimeUpdate
}.

Record FeedEntity : Type := {
  id : string;
  trip_update : option TripUpdate
}.

Record FeedHeader : Type := {
  timestamp : option Z
}.

Record FeedMessage : Type := {
  header : FeedHeader;
  entity : list FeedEntity
}.

End Wire.

(** *** [FeedMessage.decode]

    The object the bindings hand to the handler.  A scalar field that the
    message leaves out reads as the default value kept on the prototype:
    the empty string, [0], and for a 64-bit field a [Long] object holding 0;
    a 64-bit field that is set is a [Long] as well.  A sub-message that is
    left out reads as [null], a repeated field as an array. *)
Definition int64 (v : option Z) : Int64 :=
  match v with
  | Some n => JsLong n
  | None => JsLong 0
  end.

Definition text (v : option string) : string :=
  match v with
  | Some s => s
  | None => EmptyString
  end.

Definition decodeEvent (e : Wire.StopTimeEvent) : StopTimeEvent :=
  {| time := Some (int64 (Wire.time e)) |}.

Definition decodeStopTimeUpdate (su : Wire.StopTimeUpdate) : StopTimeUpdate :=
  {| stopId := text (Wire.stop_id su);
     arrival := option_map decodeEvent (Wire.arrival su);
     departure := option_map decodeEvent (Wire.departure su) |}.

Definition decodeTrip (t : Wire.TripDescriptor) : TripDescriptor :=
  {| tripId := text (Wire.trip_id t);
     routeId := text (Wire.route_id t);
     directionId := Some (match Wire.direction_id t with
                          | Some d => d
                          | None => 0
                          end) |}.

Definition decodeTripUpdate (tu : Wire.TripUpdate) : TripUpdate :=
  {| trip := decodeTrip (Wire.trip tu);
     stopTimeUpdate := Some (map decodeStopTimeUpdate (Wire.stop_time_update tu)) |}.

Definition decodeEntity (e : Wire.FeedEntity) : FeedEntity :=
  {| tripUpdate := option_map decodeTripUpdate (Wire.trip_update e) |}.

Definition decode (payload : Wire.FeedMessage) : FeedMessage :=
  {| header := {| timestamp := int64 (Wire.timestamp (Wire.header payload)) |};
     entity := map decodeEntity (Wire.entity payload) |}.

End Gtfs.

(* ================================================================== *)
(** ** server.js: GET /api/rtd/gline/:stopId                            *)
(* ================================================================== *)

Module Server.

(** One element of the [arrivals] array of the response. *)
Module Arrival.
Record t : Type := {
  route : string;
  routeId : string;
  tripId : string;
  directionId : Z;
  arrivalTime : Z;
  scheduledArrivalTime : Gtfs.Int64;
  arrivalTimeFormatted : string;
  status : string;
  stopId : string
}.
End Arrival.

(** The JSON body of the response. *)
Module Result.
Record t : Type := {
  stopId : string;
  stopName : string;
  timestamp : Z;
  feedTimestamp : Z;
  feedAgeMinutes : Z;
  arrivals : list Arrival.t
}.
End Result.

Section Handler.
(** [new Date(t * 1000).toLocaleTimeString('en-US', {timeZone:
    'America/Denver', ...})], a function of the epoch second. *)
Variable toLocaleTimeString : Z -> string.

(** [trip.directionId || 0]. *)
Definition directionId_or_0 (d : option Z) : Z :=
  match d with
  | Some n => n
  | None => 0
  end.

(** Body of the inner loop: one stop-time update of one trip. *)
Definition visit_stopUpdate (stopId : string) (trip : Gtfs.TripDescriptor)
    (arrivals : list Arrival.t) (stopUpdate : Gtfs.StopTimeUpdate)
    : list Arrival.t :=
  if String.eqb (Gtfs.stopId stopUpdate) stopId then
    match Gtfs.arrival stopUpdate with
    | Some arrival =>
        if Gtfs.truthy (Gtfs.time arrival) then
          match Gtfs.time arrival with
          | Some t =>
              let arrivalTime := Gtfs.Number t in
              Js.push arrivals
                {| Arrival.route := Gtfs.routeId trip;
                   Arrival.routeId := Gtfs.routeId trip;
                   Arrival.tripId := Gtfs.tripId trip;
                   Arrival.directionId := directionId_or_0 (Gtfs.directionId trip);
                   Arrival.arrivalTime := arrivalTime;
                   Arrival.scheduledArrivalTime := t;
                   Arrival.arrivalTimeFormatted := toLocaleTimeString arrivalTime;
                   Arrival.status := "Scheduled";
                   Arrival.stopId := stopId |}
          | None => arrivals
          end
        else arrivals
    | None => arrivals
    end
  else arrivals.

(** [entity.tripUpdate.stopTimeUpdate || []]. *)
Definition stopTimeUpdates (tu : Gtfs.TripUpdate) : list Gtfs.StopTimeUpdate :=
  match Gtfs.stopTimeUpdate tu with
  | Some l => l
  | None => []
  end.

(** Body of the outer loop: one feed entity. *)
Definition visit_entity (stopId : string) (arrivals : list Arrival.t)
    (entity : Gtfs.FeedEntity) : list Arrival.t :=
  match Gtfs.tripUpdate entity with
  | Some tu =>
      fold_left (visit_stopUpdate stopId (Gtfs.trip tu)) (stopTimeUpdates tu)
                arrivals
  | None => arrivals
  end.

(** The decode loop: [arrivals] after the [for] over [feed.entity]. *)
Definition parseArrivals (feed : Gtfs.FeedMessage) (stopId : string)
    : list Arrival.t :=
  fold_left (visit_entity stopId) (Gtfs.entity feed) [].

(** [(a, b) => a.arrivalTime - b.arrivalTime] is positive. *)
Definition byArrivalTime (a b : Arrival.t) : bool :=
  0 <? Arrival.arrivalTime a - Arrival.arrivalTime b.

(** The handler after a successful fetch and decode; [nowMs] is the
    [Date.now()] read before the loop, [stampMs] the one read for the
    [timestamp] of the result. *)
Definition gline (feed : Gtfs.FeedMessage) (nowMs stampMs : Z) (stopId : string)
    : Result.t :=
  let now := nowMs / 1000 in
  let arrivals := Js.sort byArrivalTime (parseArrivals feed stopId) in
  let ts := Gtfs.Number (Gtfs.timestamp (Gtfs.header feed)) in
  {| Result.stopId := stopId;
     Result.stopName := stopId;
     Result.timestamp := stampMs;
     Result.feedTimestamp := ts * 1000;
     Result.feedAgeMinutes := (now - ts) / 60;
     Result.arrivals := arrivals |}.

(** *** What the loop pushes, update by update *)

(** All stop-time updates the loops visit, in feed order. *)
Definition all_stopUpdates (feed : Gtfs.FeedMessage) : list Gtfs.StopTimeUpdate :=
  flat_map (fun e => match Gtfs.tripUpdate e with
                     | Some tu => stopTimeUpdates tu
                     | None => []
                     end) (Gtfs.entity feed).

(** The number behind the guard [arrival && arrival.time]: [Number(time)]
    when the update has an [arrival] whose [time] is truthy. *)
Definition guarded_time (su : Gtfs.StopTimeUpdate) : option Z :=
  match Gtfs.arrival su with
  | Some a => if Gtfs.truthy (Gtfs.time a)
              then option_map Gtfs.Number (Gtfs.time a) else None
  | None => None
  end.

(** The [arrivalTime]s the loop body pushes for one stop-time update. *)
Definition pushed (stopId : string) (su : Gtfs.StopTimeUpdate) : list Z :=
  if String.eqb (Gtfs.stopId su) stopId then
    match guarded_time su with
    | Some t => [t]
    | None => []
    end
  else [].

End Handler.

(** *** The decode step in the words of the specification

    The specification speaks of the feed itself: a stop-time update has an
    arrival time when its arrival event is there and carries a time. *)

(** All stop-time updates of the message, in feed order. *)
Definition feed_stopUpdates (payload : Gtfs.Wire.FeedMessage)
    : list Gtfs.Wire.StopTimeUpdate :=
  flat_map (fun e => match Gtfs.Wire.trip_update e with
                     | Some tu => Gtfs.Wire.stop_time_update tu
                     | None => []
                     end) (Gtfs.Wire.entity payload).

(** "whose arrival time is present". *)
Definition spec_arrival_time (su : Gtfs.Wire.StopTimeUpdate) : option Z :=
  match Gtfs.Wire.arrival su with
  | Some a => Gtfs.Wire.time a
  | None => None
  end.

(** "whose stop identifier equals the requested platform". *)
Definition spec_at (stopId : string) (su : Gtfs.Wire.StopTimeUpdate) : bool :=
  match Gtfs.Wire.stop_id su with
  | Some s => String.eqb s stopId
  | None => false
  end.

(** The [epochSeconds] of the records the specification emits for one
    stop-time update: one when the update is at the platform and has an
    arrival time, none otherwise. *)
Definition spec_emitted (stopId : string) (su : Gtfs.Wire.StopTimeUpdate)
    : list Z :=
  if spec_at stopId su then
    match spec_arrival_time su with
    | Some t => [t]
    | None => []
    end
  else [].

Definition spec_decode (stopId : string) (payload : Gtfs.Wire.FeedMessage)
    : list Z :=
  flat_map (spec_emitted stopId) (feed_stopUpdates payload).

(** What the handler makes of one stop-time update of the message, the
    decoder's defaults written out: an arrival event gives one record,
    with the time it carries or with 0. *)
Definition decoded_times (stopId : string) (su : Gtfs.Wire.StopTimeUpdate)
    : list Z :=
  if String.eqb (Gtfs.text (Gtfs.Wire.stop_id su)) stopId then
    match Gtfs.Wire.arrival su with
    | Some a => [match Gtfs.Wire.time a with Some t => t | None => 0 end]
    | None => []
    end
  else [].

End Server.

(* ================================================================== *)
(** ** Upstream JSON shapes consumed by the client                      *)
(* ================================================================== *)

Module Upstream.

(** One element of [data.arrivals]. *)
Module ArrivalEntry.
Record t : Type := {
  routeId : string;
  directionId : option Z;
  tripId : string;
  arrivalTime : option Z;
  departureTime : option Z;
  arrivalTimeFormatted : option string;
  departureTimeFormatted : option string
}.
End ArrivalEntry.

Module ArrivalsResponse.
Record t : Type := {
  stopName : option string;
  timestamp : option Z;
  arrivals : option (list ArrivalEntry.t)
}.
End ArrivalsResponse.

(** One element of [data.routes] of the route provider. *)
Module Route.
Record t : Type := {
  duration : option string;
  distanceMeters : option Z;
  description : option string
}.
End Route.

Module RoutesResponse.
Record t : Type := {
  routes : option (list Route.t)
}.
End RoutesResponse.

(** The answer of the weather provider, as far as [getWeather] reads it. *)
Module WeatherMain.
Record t : Type := {
  temp : option Q;
  feels_like : option Q;
  humidity : option Q
}.
End WeatherMain.

Module WeatherCondition.
Record t : Type := {
  description : option string;
  icon : option string
}.
End WeatherCondition.

Module Wind.
Record t : Type := {
  speed : option Q
}.
End Wind.

Module WeatherData.
Record t : Type := {
  main : option WeatherMain.t;
  weather : option (list WeatherCondition.t);
  wind : option Wind.t
}.
End WeatherData.

End Upstream.

(* ================================================================== *)
(** ** api.js: the API client                                          *)
(* ================================================================== *)

Module Api.

(** Outcome of [await this.fetch(endpoint, options)]: the parsed JSON, or
    an exception (network failure, non-2xx status). *)
Inductive Fetched (A : Type) : Type :=
| Ok (data : A)
| Threw.
Arguments Ok {A} data.
Arguments Threw {A}.

(** A normalised arrival, the element type of every arrival list kept in
    the application state. *)
Module Arrival.
Record t : Type := {
  time : option Z;
  timeFormatted : option string;
  routeId : string;
  directionId : option Z;
  tripId : string;
  minutesAway : option Z
}.
End Arrival.

Module StationArrivals.
Record t : Type := {
  stopId : string;
  stopName : string;
  arrivals : list Arrival.t;
  timestamp : option Z;
  _isFallback : bool
}.
End StationArrivals.

(** [{ ...data, northbound, southbound }]. *)
Module LineArrivals.
Record t : Type := {
  data : StationArrivals.t;
  northbound : list Arrival.t;
  southbound : list Arrival.t
}.
End LineArrivals.

Module DriveTime.
Record t : Type := {
  minutes : option Z;
  distance : option Z;
  description : string;
  _isFallback : bool
}.
End DriveTime.

(** The readings of [Date.now()] (milliseconds) one call takes, in the
    order it takes them. *)
Definition Clock : Type := nat -> Z.

(** What one poll observes of the outside world: the transit endpoints,
    and the clock as the call [getStationArrivals(stopId, routeId)] reads
    it.  Nothing is assumed of the readings. *)
Record Env : Type := {
  fetch : string -> Fetched Upstream.ArrivalsResponse.t;
  now : string -> string -> Clock
}.

(** *** Station arrivals *)

(** The [.map] callback of [getStationArrivals]; [nowMs] is the
    [Date.now()] this call of the callback reads. *)
Definition normalize (nowMs : Z) (arrival : Upstream.ArrivalEntry.t) : Arrival.t :=
  {| Arrival.time :=
       Js.or_num (Upstream.ArrivalEntry.arrivalTime arrival)
                 (Upstream.ArrivalEntry.departureTime arrival);
     Arrival.timeFormatted :=
       Js.or_str (Upstream.ArrivalEntry.arrivalTimeFormatted arrival)
                 (Upstream.ArrivalEntry.departureTimeFormatted arrival);
     Arrival.routeId := Upstream.ArrivalEntry.routeId arrival;
     Arrival.directionId := Upstream.ArrivalEntry.directionId arrival;
     Arrival.tripId := Upstream.ArrivalEntry.tripId arrival;
     (* Math.round((arrival.arrivalTime - Date.now() / 1000) / 60) *)
     Arrival.minutesAway :=
       match Upstream.ArrivalEntry.arrivalTime arrival with
       | Some t => Some (Js.Math_round_div (1000 * t - nowMs) 60000)
       | None => None
       end |}.

(** The [.filter] callback: [arrival.routeId === routeId]. *)
Definition matches (routeId : string) (arrival : Upstream.ArrivalEntry.t) : bool :=
  String.eqb (Upstream.ArrivalEntry.routeId arrival) routeId.

(** [(a, b) => a.time - b.time] is positive; with a missing time the
    difference is [NaN]. *)
Definition byTime (a b : Arrival.t) : bool :=
  match Arrival.time a, Arrival.time b with
  | Some x, Some y => 0 <? x - y
  | _, _ => false
  end.

(** [a] is not later than [b], both carrying an epoch time. *)
Definition chronological (a b : Arrival.t) : Prop :=
  match Arrival.time a, Arrival.time b with
  | Some x, Some y => x <= y
  | _, _ => False
  end.

(** [.map(callback)] from index [i] on: the callback runs once per
    element, and reads the clock each time. *)
Fixpoint mapNormalize (clock : Clock) (i : nat)
    (entries : list Upstream.ArrivalEntry.t) : list Arrival.t :=
  match entries with
  | [] => []
  | e :: rest => normalize (clock i) e :: mapNormalize clock (S i) rest
  end.

(** [(data.arrivals || []).filter(...).map(...).sort(...)]. *)
Definition normalizeArrivals (clock : Clock) (routeId : string)
    (entries : option (list Upstream.ArrivalEntry.t)) : list Arrival.t :=
  let entries := match entries with Some l => l | None => [] end in
  Js.sort byTime (mapNormalize clock 0 (filter (matches routeId) entries)).

Definition endpoint (stopId routeId : string) : string :=
  if String.eqb routeId "117N"
  then ("/api/rtd/arrivals/" ++ stopId)%string
  else ("/api/rtd/gline/" ++ stopId)%string.

Definition getStationArrivals (env : Env) (stopId routeId : string)
    : StationArrivals.t :=
  match fetch env (endpoint stopId routeId) with
  | Ok data =>
      {| StationArrivals.stopId := stopId;
         StationArrivals.stopName :=
           match Js.or_str (Upstream.ArrivalsResponse.stopName data) (Some stopId) with
           | Some s => s
           | None => stopId
           end;
         StationArrivals.arrivals :=
           normalizeArrivals (now env stopId routeId) routeId
                             (Upstream.ArrivalsResponse.arrivals data);
         StationArrivals.timestamp := Upstream.ArrivalsResponse.timestamp data;
         StationArrivals._isFallback := false |}
  | Threw =>
      {| StationArrivals.stopId := stopId;
         StationArrivals.stopName := stopId;
         StationArrivals.arrivals := [];
         StationArrivals.timestamp := Some (now env stopId routeId 0%nat);
         StationArrivals._isFallback := true |}
  end.

(** [a.directionId === d]. *)
Definition hasDirection (d : Z) (a : Arrival.t) : bool :=
  match Arrival.directionId a with
  | Some x => x =? d
  | None => false
  end.

Definition getLineArrivals (env : Env) (stopId routeId : string)
    : LineArrivals.t :=
  let data := getStationArrivals env stopId routeId in
  let northbound := filter (hasDirection 0) (StationArrivals.arrivals data) in
  let southbound := filter (hasDirection 1) (StationArrivals.arrivals data) in
  {| LineArrivals.data := data;
     LineArrivals.northbound := Js.slice0 3 northbound;
     LineArrivals.southbound := Js.slice0 3 southbound |}.

(** *** Drive times *)

Definition getFallbackDriveTime : DriveTime.t :=
  {| DriveTime.minutes := Some 30;
     DriveTime.distance := Some 15;
     DriveTime.description := "Estimated";
     DriveTime._isFallback := true |}.

Section DriveTimes.
(** Coordinates are passed through to the provider untouched. *)
Variable Coord : Type.

Record LatLng : Type := { lat : option Coord; lng : option Coord }.

Record RouteModifiers : Type := {
  avoidTolls : bool;
  avoidHighways : bool;
  avoidFerries : bool
}.

(** The request body posted to [/api/routes]. *)
Record RoutesBody : Type := {
  origin : LatLng;
  destination : LatLng;
  travelMode : string;
  routingPreference : string;
  computeAlternativeRoutes : bool;
  routeModifiers : RouteModifiers;
  languageCode : string;
  units : string
}.

(** [parseInt] of the standard library, [None] being [NaN]. *)
Variable parseInt : string -> option Z.
(** The route provider behind [this.fetch('/api/routes', ...)]. *)
Variable fetchRoutes : RoutesBody -> Fetched Upstream.RoutesResponse.t.

Definition routesBody (origin destination : LatLng) (avoidHighways : bool)
    : RoutesBody :=
  {| origin := origin;
     destination := destination;
     travelMode := "DRIVE";
     routingPreference := "TRAFFIC_AWARE";
     computeAlternativeRoutes := false;
     routeModifiers := {| avoidTolls := false;
                          avoidHighways := avoidHighways;
                          avoidFerries := true |};
     languageCode := "en-US";
     units := "IMPERIAL" |}.

(** The value returned from inside the [try] for the first route. *)
Definition driveTimeOf (route : Upstream.Route.t) : DriveTime.t :=
  let duration :=
    match Upstream.Route.duration route with
    | Some s => parseInt s
    | None => None
    end in
  {| DriveTime.minutes := option_map (fun d => Js.Math_round_div d 60) duration;
     (* Math.round(route.distanceMeters * 0.000621371) *)
     DriveTime.distance :=
       option_map (fun m => Js.Math_round_div (m * 621371) 1000000000)
                  (Upstream.Route.distanceMeters route);
     DriveTime.description :=
       match Js.or_str (Upstream.Route.description route) (Some EmptyString) with
       | Some s => s
       | None => EmptyString
       end;
     DriveTime._isFallback := false |}.

(** [getDriveTimes]: every exception raised inside the [try], the
    explicit ['No routes found'] included, ends in the [catch]. *)
Definition getDriveTimes (origin destination : LatLng) (avoidHighways : bool)
    : DriveTime.t :=
  match fetchRoutes (routesBody origin destination avoidHighways) with
  | Ok data =>
      match Upstream.RoutesResponse.routes data with
      | Some (route :: _) => driveTimeOf route
      | Some [] => getFallbackDriveTime
      | None => getFallbackDriveTime
      end
  | Threw => getFallbackDriveTime
  end.

End DriveTimes.

(** *** Weather *)

Module Weather.
Record t : Type := {
  temp : option Z;
  feelsLike : option Z;
  description : option string;
  icon : option string;
  humidity : option Q;
  windSpeed : option Z;
  _isFallback : bool
}.
End Weather.

Definition getFallbackWeather : Weather.t :=
  {| Weather.temp := Some 50;
     Weather.feelsLike := Some 48;
     Weather.description := Some "Unavailable"%string;
     Weather.icon := Some "01d"%string;
     Weather.humidity := Some (50 # 1);
     Weather.windSpeed := Some 5;
     Weather._isFallback := true |}.

(** The object literal built inside the [try] of [getWeather]; [None] is the
    [TypeError] of reading a property of a missing [data.main],
    [data.weather], [data.weather[0]] or [data.wind]. *)
Definition weatherOf (data : Upstream.WeatherData.t) : option Weather.t :=
  match Upstream.WeatherData.main data with
  | None => None
  | Some main =>
      match Upstream.WeatherData.weather data with
      | None => None
      | Some [] => None
      | Some (condition :: _) =>
          match Upstream.WeatherData.wind data with
          | None => None
          | Some wind =>
              Some {| Weather.temp :=
                        option_map Js.Math_round (Upstream.WeatherMain.temp main);
                      Weather.feelsLike :=
                        option_map Js.Math_round (Upstream.WeatherMain.feels_like main);
                      Weather.description :=
                        Upstream.WeatherCondition.description condition;
                      Weather.icon := Upstream.WeatherCondition.icon condition;
                      Weather.humidity := Upstream.WeatherMain.humidity main;
                      Weather.windSpeed :=
                        option_map Js.Math_round (Upstream.Wind.speed wind);
                      Weather._isFallback := false |}
          end
      end
  end.

Section Weather.
(** Coordinates go into the query string untouched. *)
Variable Coord : Type.
(** The weather endpoint behind [this.fetch(`/api/weather?lat=..&lon=..`)]. *)
Variable fetchWeather : option Coord -> option Coord -> Fetched Upstream.WeatherData.t.

Definition getWeather (lat lon : option Coord) : Weather.t :=
  match fetchWeather lat lon with
  | Ok data =>
      match weatherOf data with
      | Some w => w
      | None => getFallbackWeather
      end
  | Threw => getFallbackWeather
  end.
End Weather.

(** The countdown of [a] is a number that exceeds that of [b] by at most
    [k] minutes. *)
Definition countdown_within (k : Z) (a b : Arrival.t) : Prop :=
  match Arrival.minutesAway a, Arrival.minutesAway b with
  | Some x, Some y => x <= y + k
  | _, _ => False
  end.

(** The first [n] readings of the clock lie in the window from [lo] to
    [hi]. *)
Definition ticks_within (n : nat) (lo hi : Z) (clock : Clock) : Prop :=
  forall i : nat, (i < n)%nat -> lo <= clock i <= hi.

End Api.

(* ================================================================== *)
(** ** app.js: application state and view model                         *)
(* ================================================================== *)

Module App.

Module Station.
Record t : Type := { id : string; name : string }.
End Station.

(** An entry of [config.nLinePlatforms]: the physical platforms behind one
    rider-facing station and the directions declared for them. *)
Module PlatformConfig.
Record t : Type := {
  platforms : list string;
  directions : list string
}.
End PlatformConfig.

Module Config.
Record t : Type := {
  nLinePlatforms : list (string * PlatformConfig.t);
  stations : list (string * list Station.t)
}.
End Config.

(** The board stored under [lineData[station.id]]:
    [{ ...data, stationName }].  [fetched] keeps the remaining fields of a
    standard fetch; the merged N-line path has none. *)
Module StationBoard.
Record t : Type := {
  northbound : list Api.Arrival.t;
  southbound : list Api.Arrival.t;
  stopName : string;
  stationName : string;
  fetched : option Api.StationArrivals.t
}.
End StationBoard.

(** [obj[key]] on an object literal. *)
Fixpoint lookup {A : Type} (key : string) (obj : list (string * A)) : option A :=
  match obj with
  | [] => None
  | (k, v) :: rest => if String.eqb k key then Some v else lookup key rest
  end.

(** [arr.includes(s)]. *)
Definition includes (arr : list string) (s : string) : bool :=
  existsb (String.eqb s) arr.

Definition config : Config.t :=
  {| Config.nLinePlatforms :=
       [ ("35365"%string,
          {| PlatformConfig.platforms := ["35365"%string];
             PlatformConfig.directions := ["southbound"%string] |});
         ("35254"%string,
          {| PlatformConfig.platforms := ["35254"%string; "35255"%string];
             PlatformConfig.directions := ["northbound"%string; "southbound"%string] |});
         ("35246"%string,
          {| PlatformConfig.platforms := ["35246"%string; "35247"%string];
             PlatformConfig.directions := ["northbound"%string; "southbound"%string] |});
         ("34668"%string,
          {| PlatformConfig.platforms := ["34668"%string];
             PlatformConfig.directions := ["northbound"%string] |}) ];
     Config.stations :=
       [ ("117N"%string,
          [ {| Station.id := "35365"; Station.name := "Eastlake & 124th" |};
            {| Station.id := "35254"; Station.name := "112th / Northglenn" |};
            {| Station.id := "35246"; Station.name := "48th & Brighton" |};
            {| Station.id := "34668"; Station.name := "Union Station" |} ]);
         ("113G"%string,
          [ {| Station.id := "34510"; Station.name := "Ward Station / Wheat Ridge" |};
            {| Station.id := "34541"; Station.name := "Olde Town Arvada" |};
            {| Station.id := "34525"; Station.name := "Gold Strike" |};
            {| Station.id := "34544"; Station.name := "Pecos Junction" |};
            {| Station.id := "34781"; Station.name := "Union Station" |} ]);
         ("113B"%string,
          [ {| Station.id := "34560"; Station.name := "Westminster" |};
            {| Station.id := "34544"; Station.name := "Pecos Junction" |};
            {| Station.id := "34782"; Station.name := "Union Station" |} ]) ] |}.

(** *** fetchTransitData *)

Section Fetch.
Variable env : Api.Env.
Variable cfg : Config.t.

(** Body of the loop over [platformIds]; the state is the pair
    [(allNorthbound, allSouthbound)]. *)
Definition mergePlatform (lineId : string) (allowedDirections : list string)
    (acc : list Api.Arrival.t * list Api.Arrival.t) (platformId : string)
    : list Api.Arrival.t * list Api.Arrival.t :=
  let platformData := Api.getLineArrivals env platformId lineId in
  let allNorthbound :=
    if includes allowedDirections "northbound"
    then Js.push_all (fst acc) (Api.LineArrivals.northbound platformData)
    else fst acc in
  let allSouthbound :=
    if includes allowedDirections "southbound"
    then Js.push_all (snd acc) (Api.LineArrivals.southbound platformData)
    else snd acc in
  (allNorthbound, allSouthbound).

(** The N-line branch: fetch every platform, keep the allowed
    directions, sort the combined lists by time. *)
Definition mergePlatforms (lineId : string) (station : Station.t)
    (pc : PlatformConfig.t) : StationBoard.t :=
  let merged :=
    fold_left (mergePlatform lineId (PlatformConfig.directions pc))
              (PlatformConfig.platforms pc) ([], []) in
  {| StationBoard.northbound := Js.sort Api.byTime (fst merged);
     StationBoard.southbound := Js.sort Api.byTime (snd merged);
     StationBoard.stopName := Station.name station;
     StationBoard.stationName := Station.name station;
     StationBoard.fetched := None |}.

(** The standard branch of the G and B lines. *)
Definition standardFetch (lineId : string) (station : Station.t)
    : StationBoard.t :=
  let data := Api.getLineArrivals env (Station.id station) lineId in
  {| StationBoard.northbound := Api.LineArrivals.northbound data;
     StationBoard.southbound := Api.LineArrivals.southbound data;
     StationBoard.stopName :=
       Api.StationArrivals.stopName (Api.LineArrivals.data data);
     StationBoard.stationName := Station.name station;
     StationBoard.fetched := Some (Api.LineArrivals.data data) |}.

(** Body of the loop over the stations of one line. *)
Definition fetchStation (lineId : string) (station : Station.t)
    : StationBoard.t :=
  if String.eqb lineId "117N" then
    match lookup (Station.id station) (Config.nLinePlatforms cfg) with
    | Some pc => mergePlatforms lineId station pc
    | None => standardFetch lineId station
    end
  else standardFetch lineId station.

(** The stop identifiers [fetchStation] asks arrivals for. *)
Definition platformsOf (lineId : string) (station : Station.t) : list string :=
  if String.eqb lineId "117N" then
    match lookup (Station.id station) (Config.nLinePlatforms cfg) with
    | Some pc => PlatformConfig.platforms pc
    | None => [Station.id station]
    end
  else [Station.id station].

(** [lineData] of one line, in station order. *)
Definition fetchLine (lineId : string) : list (string * StationBoard.t) :=
  let stations :=
    match lookup lineId (Config.stations cfg) with
    | Some l => l
    | None => []
    end in
  map (fun station => (Station.id station, fetchStation lineId station))
      stations.

Definition fetchTransitData : list (string * list (string * StationBoard.t)) :=
  map (fun lineId => (lineId, fetchLine lineId))
      ["117N"%string; "113G"%string; "113B"%string].
End Fetch.

(** *** renderYourStation: one row of a direction column *)

(** [Math.max(0, train.minutesAway)]. *)
Definition displayMinutes (train : Api.Arrival.t) : option Z :=
  option_map (Z.max 0) (Api.Arrival.minutesAway train).

(** [m <= k], false on [NaN]. *)
Definition js_le (m : option Z) (k : Z) : bool :=
  match m with
  | Some x => x <=? k
  | None => false
  end.

(** [m < k], false on [NaN]. *)
Definition js_lt (m : option Z) (k : Z) : bool :=
  match m with
  | Some x => x <? k
  | None => false
  end.

Definition trainStatus (train : Api.Arrival.t) : string :=
  let minutesAway := displayMinutes train in
  if js_le minutesAway 1 then "Arriving"
  else if js_le minutesAway 5 then "Approaching"
  else "Scheduled".

Definition countdownClass (train : Api.Arrival.t) : string :=
  let minutesAway := displayMinutes train in
  if js_lt minutesAway 2 then "imminent"
  else if js_lt minutesAway 5 then "soon"
  else EmptyString.

Module TrainRow.
Record t : Type := {
  time : option Z;
  status : string;
  countdown : string;
  showsNow : bool;
  minutes : option Z
}.
End TrainRow.

Definition trainRow (train : Api.Arrival.t) : TrainRow.t :=
  {| TrainRow.time := Api.Arrival.time train;
     TrainRow.status := trainStatus train;
     TrainRow.countdown := countdownClass train;
     TrainRow.showsNow := js_lt (displayMinutes train) 1;
     TrainRow.minutes := displayMinutes train |}.

(** The rows of one direction column: the next two trains. *)
Definition directionRows (arrivals : list Api.Arrival.t) : list TrainRow.t :=
  map trainRow (Js.slice0 2 arrivals).

(** *** Preferences *)

(** The part of [App.state] the preference code reads and writes. *)
Module State.
Record t : Type := {
  theme : string;
  activeTab : string;
  selectedLine : string;
  selectedStation : list (string * string);
  avoidHighways : bool
}.
End State.

(** The object read back from storage; any property may be missing. *)
Module Prefs.
Record t : Type := {
  theme : option string;
  avoidHighways : option bool;
  selectedStation : option (list (string * string))
}.
End Prefs.

(** [localStorage.getItem('commutePreferences')] seen through [JSON.parse]:
    no item (or an empty one), text on which the [try] block throws
    (malformed JSON, or the literal [null]), or an object.  [JSON.parse]
    gives back the object [JSON.stringify] was given when its properties are
    strings, booleans and objects of strings. *)
Inductive Stored : Type :=
| NoItem
| Unparsable
| Parsed (prefs : Prefs.t).

Definition savePreferences (s : State.t) : Stored :=
  Parsed {| Prefs.theme := Some (State.theme s);
            Prefs.avoidHighways := Some (State.avoidHighways s);
            Prefs.selectedStation := Some (State.selectedStation s) |}.

Definition loadPreferences (saved : Stored) (s : State.t) : State.t :=
  match saved with
  | NoItem => s
  | Unparsable => s
  | Parsed prefs =>
      {| State.theme :=
           match Js.or_str (Prefs.theme prefs) (Some "dark"%string) with
           | Some t => t
           | None => "dark"
           end;
         State.activeTab := State.activeTab s;
         State.selectedLine := State.selectedLine s;
         State.selectedStation :=
           match Prefs.selectedStation prefs with
           | Some sel => sel
           | None => State.selectedStation s
           end;
         State.avoidHighways :=
           match Prefs.avoidHighways prefs with
           | Some b => b
           | None => false
           end |}
  end.

(** [obj[key] = value]: replace in place, or add at the end. *)
Fixpoint assign {A : Type} (key : string) (value : A) (obj : list (string * A))
    : list (string * A) :=
  match obj with
  | [] => [(key, value)]
  | (k, v) :: rest =>
      if String.eqb k key then (k, value) :: rest
      else (k, v) :: assign key value rest
  end.

(** [toggleTheme], [changeStation] and [toggleAvoidHighways] up to the call
    of [savePreferences]: the new state and what is written to storage. *)
Definition toggleTheme (s : State.t) : State.t * Stored :=
  let s' := {| State.theme := if String.eqb (State.theme s) "dark"
                              then "light" else "dark";
               State.activeTab := State.activeTab s;
               State.selectedLine := State.selectedLine s;
               State.selectedStation := State.selectedStation s;
               State.avoidHighways := State.avoidHighways s |} in
  (s', savePreferences s').

Definition changeStation (lineId stationId : string) (s : State.t)
    : State.t * Stored :=
  let s' := {| State.theme := State.theme s;
               State.activeTab := State.activeTab s;
               State.selectedLine := State.selectedLine s;
               State.selectedStation :=
                 assign lineId stationId (State.selectedStation s);
               State.avoidHighways := State.avoidHighways s |} in
  (s', savePreferences s').

Definition toggleAvoidHighways (s : State.t) : State.t * Stored :=
  let s' := {| State.theme := State.theme s;
               State.activeTab := State.activeTab s;
               State.selectedLine := State.selectedLine s;
               State.selectedStation := State.selectedStation s;
               State.avoidHighways := negb (State.avoidHighways s) |} in
  (s', savePreferences s').

(** *** renderAllStationsQuickView *)

(** [data?.northbound?.[0]]. *)
Definition nextOf (arrivals : list Api.Arrival.t) : option Api.Arrival.t :=
  nth_error arrivals 0.

(** One "Next NB" / "Next SB" cell: nothing, or the clamped countdown, the
    test for "Now" and the epoch time of the clock shown. *)
Module NextCell.
Record t : Type := {
  minutes : option Z;
  showsNow : bool;
  time : option Z
}.
End NextCell.

Definition nextCell (arrivals : list Api.Arrival.t) : option NextCell.t :=
  match nextOf arrivals with
  | Some next =>
      Some {| NextCell.minutes := displayMinutes next;
              NextCell.showsNow := js_lt (displayMinutes next) 1;
              NextCell.time := Api.Arrival.time next |}
  | None => None
  end.

(** The table: one row per configured station of the line, looked up in
    [lineData]. *)
Definition quickView (cfg : Config.t) (lineId : string)
    (lineData : list (string * StationBoard.t))
    : list (string * option NextCell.t * option NextCell.t) :=
  let stations :=
    match lookup lineId (Config.stations cfg) with
    | Some l => l
    | None => []
    end in
  map (fun station =>
         let data := lookup (Station.id station) lineData in
         (Station.name station,
          match data with
          | Some d => nextCell (StationBoard.northbound d)
          | None => None
          end,
          match data with
          | Some d => nextCell (StationBoard.southbound d)
          | None => None
          end))
      stations.

End App.

(* ================================================================== *)
(** ** renderVisualTrack: live vehicle markers on the track             *)
(* ================================================================== *)

(** The revision of the application that draws a marker per live vehicle:
    [getTrainPosition] is a closure over the station table of the selected
    line, which is made a parameter here.  Numbers are binary64 values with
    the operations of IEEE 754, which are those of ECMAScript. *)

(** Shapes of a double, read off its sign, mantissa and exponent. *)
Module Double.





End Double.

Module Track.

Local Open Scope float_scope.

(** A number read from a property: [None] is [undefined]. *)
Definition num : Type := option float.

(** [ToBoolean]: [undefined], [NaN], [+0] and [-0] are falsy. *)
Definition truthy (v : num) : bool :=
  match v with
  | Some x => negb (is_nan x || is_zero x)
  | None => false
  end.

(** [ToNumber] of an operand of [-]: [undefined] becomes [NaN]. *)
Definition ToNumber (v : num) : float :=
  match v with
  | Some x => x
  | None => nan
  end.

(** [Math.min(a, b)] and [Math.max(a, b)]: [NaN] if either argument is
    [NaN]; [-0] counts as smaller than [+0]. *)
Definition Math_min (a b : float) : float :=
  if is_nan a || is_nan b then nan
  else if a <? b then a
  else if b <? a then b
  else match classify b with
       | NZero => b
       | _ => a
       end.

Definition Math_max (a b : float) : float :=
  if is_nan a || is_nan b then nan
  else if b <? a then a
  else if a <? b then b
  else match classify b with
       | PZero => b
       | _ => a
       end.

Module Vehicle.
Record t : Type := {
  routeId : string;
  directionId : option Z;
  latitude : num;
  longitude : num;
  label : option string
}.
End Vehicle.

(** An entry of [stationConfigs]; the G and B lines carry no [lat]/[lng]. *)
Module TrackStation.
Record t : Type := {
  id : string;
  name : string;
  lat : num;
  lng : num;
  pos : float
}.
End TrackStation.

Definition stationConfigs : list (string * list TrackStation.t) :=
  [ ("117N"%string,
     [ {| TrackStation.id := "34668"; TrackStation.name := "Union";
          TrackStation.lat := Some 39.7539; TrackStation.lng := Some (-105.0000);
          TrackStation.pos := 3 |};
       {| TrackStation.id := "35246"; TrackStation.name := "48th";
          TrackStation.lat := Some 39.7809; TrackStation.lng := Some (-104.9693);
          TrackStation.pos := 25 |};
       {| TrackStation.id := "35254"; TrackStation.name := "112th";
          TrackStation.lat := Some 39.9158; TrackStation.lng := Some (-104.9872);
          TrackStation.pos := 70 |};
       {| TrackStation.id := "35365"; TrackStation.name := "124th";
          TrackStation.lat := Some 39.9308; TrackStation.lng := Some (-104.9900);
          TrackStation.pos := 97 |} ]);
    ("113G"%string,
     [ {| TrackStation.id := "34781"; TrackStation.name := "Union";
          TrackStation.lat := None; TrackStation.lng := None;
          TrackStation.pos := 5 |};
       {| TrackStation.id := "34544"; TrackStation.name := "Pecos";
          TrackStation.lat := None; TrackStation.lng := None;
          TrackStation.pos := 35 |};
       {| TrackStation.id := "34541"; TrackStation.name := "Olde Town";
          TrackStation.lat := None; TrackStation.lng := None;
          TrackStation.pos := 70 |};
       {| TrackStation.id := "34510"; TrackStation.name := "Ward";
          TrackStation.lat := None; TrackStation.lng := None;
          TrackStation.pos := 95 |} ]);
    ("113B"%string,
     [ {| TrackStation.id := "34782"; TrackStation.name := "Union";
          TrackStation.lat := None; TrackStation.lng := None;
          TrackStation.pos := 5 |};
       {| TrackStation.id := "34544"; TrackStation.name := "Pecos";
          TrackStation.lat := None; TrackStation.lng := None;
          TrackStation.pos := 50 |};
       {| TrackStation.id := "34560"; TrackStation.name := "Westminster";
          TrackStation.lat := None; TrackStation.lng := None;
          TrackStation.pos := 95 |} ]) ].

(** [stationConfigs[lineId] || []]. *)
Definition stationsOf (lineId : string) : list TrackStation.t :=
  match App.lookup lineId stationConfigs with
  | Some l => l
  | None => []
  end.

(** The lines a track is drawn for: the keys of [stationConfigs]. *)
Definition lines : list string := map fst stationConfigs.

(** An element of [distances]. *)
Module Dist.
Record t : Type := {
  station : TrackStation.t;
  idx : nat;
  dist : float
}.
End Dist.

(** [arr.map((x, idx) => f x idx)], counting from [i]. *)
Fixpoint mapi_from {A B : Type} (f : A -> nat -> B) (i : nat) (l : list A)
    : list B :=
  match l with
  | [] => []
  | x :: l' => f x i :: mapi_from f (S i) l'
  end.

(** The callback of [stations.map]: planar distance from the fix. *)
Definition distanceTo (trainLat trainLng : num) (station : TrackStation.t)
    (idx : nat) : Dist.t :=
  let latDiff := ToNumber trainLat - ToNumber (TrackStation.lat station) in
  let lngDiff := ToNumber trainLng - ToNumber (TrackStation.lng station) in
  let dist := sqrt (latDiff * latDiff + lngDiff * lngDiff) in
  {| Dist.station := station; Dist.idx := idx; Dist.dist := dist |}.

(** [(a, b) => a.dist - b.dist] is positive; a [NaN] difference counts
    as [0]. *)
Definition byDist (a b : Dist.t) : bool :=
  0 <? Dist.dist a - Dist.dist b.

(** What a call does: return a number (maybe [NaN]), or raise the
    [TypeError] of a property read on [undefined]. *)
Inductive Outcome : Type :=
| Returns (v : float)
| TypeError.

(** [closest.idx < secondClosest.idx ? closest : secondClosest] and the
    other one. *)
Definition station1 (closest secondClosest : Dist.t) : Dist.t :=
  if Nat.ltb (Dist.idx closest) (Dist.idx secondClosest)
  then closest else secondClosest.

Definition station2 (closest secondClosest : Dist.t) : Dist.t :=
  if Nat.ltb (Dist.idx closest) (Dist.idx secondClosest)
  then secondClosest else closest.

(** The interpolated position before the clamp. *)
Definition position (closest secondClosest : Dist.t) : float :=
  let station1 := station1 closest secondClosest in
  let station2 := station2 closest secondClosest in
  let totalDist := Dist.dist station1 + Dist.dist station2 in
  let ratio := Dist.dist station1 / totalDist in
  TrackStation.pos (Dist.station station1)
  + (TrackStation.pos (Dist.station station2)
     - TrackStation.pos (Dist.station station1)) * ratio.

(** The lines after the sort: order the two nearest stations by track
    index, interpolate between their positions, clamp to [1, 99]. *)
Definition interpolate (closest secondClosest : Dist.t) : float :=
  Math_max 1 (Math_min 99 (position closest secondClosest)).

(** [distances] before the sort. *)
Definition distances (stations : list TrackStation.t) (vehicle : Vehicle.t)
    : list Dist.t :=
  mapi_from (distanceTo (Vehicle.latitude vehicle) (Vehicle.longitude vehicle))
            0 stations.

Definition getTrainPosition (stations : list TrackStation.t)
    (vehicle : Vehicle.t) : Outcome :=
  if negb (truthy (Vehicle.latitude vehicle)) then Returns 50
  else if negb (truthy (Vehicle.longitude vehicle)) then Returns 50
  else
    match stations with
    | [] => TypeError
    | first :: _ =>
        if negb (truthy (TrackStation.lat first)) then Returns 50
        else
          match Js.sort byDist (distances stations vehicle) with
          | closest :: secondClosest :: _ =>
              Returns (interpolate closest secondClosest)
          | _ => TypeError
          end
    end.

(** [v.directionId === d]. *)
Definition heading (d : Z) (v : Vehicle.t) : bool :=
  match Vehicle.directionId v with
  | Some x => Z.eqb x d
  | None => false
  end.

(** The [left:] percentages of the markers drawn for one direction. *)
Definition markerPositions (lineId : string) (d : Z) (vehicles : list Vehicle.t)
    : list Outcome :=
  let onLine := filter (fun v => String.eqb (Vehicle.routeId v) lineId) vehicles in
  map (getTrainPosition (stationsOf lineId)) (filter (heading d) onLine).

(** A number of the interval from 1 to 99. *)
Definition inRange (r : float) : bool := (1 <=? r) && (r <=? 99).


(** The call returns, and what it returns is in [1, 99] or is [NaN]. *)
Definition onTrackOrNaN (o : Outcome) : Prop :=
  exists r : float, o = Returns r /\ (is_nan r = true \/ inRange r = true).

(** The station table carries no coordinates. *)
Definition unsurveyed (stations : list TrackStation.t) : Prop :=
  Forall (fun s => TrackStation.lat s = None /\ TrackStation.lng s = None)
         stations.





End Track.

(* ================================================================== *)
(** ** api.js and app.js: the vehicle feed behind the markers           *)
(* ================================================================== *)

Module Vehicles.

(** The JSON of [/api/rtd/vehicle-positions]. *)
Module Response.
Record t : Type := {
  vehicles : option (list Track.Vehicle.t);
  timestamp : option Z;
  feedAgeSeconds : option Z
}.
End Response.

(** What [getVehiclePositions] returns and [fetchVehiclePositions] stores in
    [state.vehiclePositions]. *)
Module Positions.
Record t : Type := {
  vehicles : list Track.Vehicle.t;
  timestamp : option Z;
  feedAgeSeconds : option Z;
  _isFallback : bool
}.
End Positions.

Definition getVehiclePositions (fetched : Api.Fetched Response.t) (nowMs : Z)
    : Positions.t :=
  match fetched with
  | Api.Ok data =>
      {| Positions.vehicles :=
           match Response.vehicles data with
           | Some l => l
           | None => []
           end;
         Positions.timestamp := Response.timestamp data;
         Positions.feedAgeSeconds := Response.feedAgeSeconds data;
         Positions._isFallback := false |}
  | Api.Threw =>
      {| Positions.vehicles := [];
         Positions.timestamp := Some nowMs;
         Positions.feedAgeSeconds := Some 0;
         Positions._isFallback := true |}
  end.

(** [renderVisualTrack]: nothing when no vehicle of the line is known,
    otherwise the marker positions of the northbound and of the southbound
    track. *)
Definition renderVisualTrack (positions : Positions.t) (lineId : string)
    : option (list Track.Outcome * list Track.Outcome) :=
  let vehicles :=
    filter (fun v => String.eqb (Track.Vehicle.routeId v) lineId)
           (Positions.vehicles positions) in
  match vehicles with
  | [] => None
  | _ :: _ =>
      let stations := Track.stationsOf lineId in
      let northbound := filter (Track.heading 0) vehicles in
      let southbound := filter (Track.heading 1) vehicles in
      Some (map (Track.getTrainPosition stations) northbound,
            map (Track.getTrainPosition stations) southbound)
  end.

End Vehicles.

(* ================================================================== *)
(** ** The G-line path end to end: server.js feeding api.js            *)
(* ================================================================== *)

Module Pipeline.






End Pipeline.

(* ================================================================== *)
(** ** Concrete feeds, environments and fixes used by the examples      *)
(* ================================================================== *)

Module Examples.

(** A message with one trip of the G line and the given stop-time
    updates, header timestamp [T]. *)
Definition one_trip (T : Z) (updates : list Gtfs.Wire.StopTimeUpdate)
    : Gtfs.Wire.FeedMessage :=
  {| Gtfs.Wire.header := {| Gtfs.Wire.timestamp := Some T |};
     Gtfs.Wire.entity :=
       [ {| Gtfs.Wire.id := "1";
            Gtfs.Wire.trip_update := Some
              {| Gtfs.Wire.trip := {| Gtfs.Wire.trip_id := Some "trip-1"%string;
                                      Gtfs.Wire.route_id := Some "113G"%string;
                                      Gtfs.Wire.direction_id := Some 1 |};
                 Gtfs.Wire.stop_time_update := updates |} |} ] |}.

(** A stop-time update at [stop] with the given arrival event and no
    departure event. *)
Definition update_at (stop : string) (arrival : option Gtfs.Wire.StopTimeEvent)
    : Gtfs.Wire.StopTimeUpdate :=
  {| Gtfs.Wire.stop_sequence := None;
     Gtfs.Wire.stop_id := Some stop;
     Gtfs.Wire.arrival := arrival;
     Gtfs.Wire.departure := None |}.

(** An arrival event with a time, and one that only says how late the
    train runs. *)
Definition at_time (t : Z) : Gtfs.Wire.StopTimeEvent :=
  {| Gtfs.Wire.delay := None; Gtfs.Wire.time := Some t;
     Gtfs.Wire.uncertainty := None |}.

Definition delayed_by (d : Z) : Gtfs.Wire.StopTimeEvent :=
  {| Gtfs.Wire.delay := Some d; Gtfs.Wire.time := None;
     Gtfs.Wire.uncertainty := None |}.

(** Scenario B: header timestamp [T]; one trip with a stop-time update
    without arrival and one with arrival time [T + 300], both at [stop]. *)
Definition scenarioB_feed (T : Z) (stop : string) : Gtfs.Wire.FeedMessage :=
  one_trip T [ update_at stop None; update_at stop (Some (at_time (T + 300))) ].

(** One stop-time update at [stop] whose arrival event gives a delay of
    one minute and no time. *)
Definition delay_only_feed (T : Z) (stop : string) : Gtfs.Wire.FeedMessage :=
  one_trip T [ update_at stop (Some (delayed_by 60)) ].

(** A JSON arrival entry of route 117N. *)
Definition entry (dir : Z) (arr dep : option Z) : Upstream.ArrivalEntry.t :=
  {| Upstream.ArrivalEntry.routeId := "117N";
     Upstream.ArrivalEntry.directionId := Some dir;
     Upstream.ArrivalEntry.tripId := "t";
     Upstream.ArrivalEntry.arrivalTime := arr;
     Upstream.ArrivalEntry.departureTime := dep;
     Upstream.ArrivalEntry.arrivalTimeFormatted := None;
     Upstream.ArrivalEntry.departureTimeFormatted := None |}.

(** An entry that reports only a departure time, two minutes ahead of a
    clock reading of 1000 s. *)
Definition departure_only : Upstream.ArrivalEntry.t :=
  entry 0 None (Some 1120).

Definition response (entries : list Upstream.ArrivalEntry.t)
    : Upstream.ArrivalsResponse.t :=
  {| Upstream.ArrivalsResponse.stopName := None;
     Upstream.ArrivalsResponse.timestamp := None;
     Upstream.ArrivalsResponse.arrivals := Some entries |}.

(** Both platforms of 112th / Northglenn report three northbound trains;
    every other endpoint fails. *)
Definition busy_env : Api.Env :=
  {| Api.fetch := fun endpoint =>
       if String.eqb endpoint "/api/rtd/arrivals/35254" then
         Api.Ok (response [entry 0 (Some 1300) None;
                           entry 0 (Some 1900) None;
                           entry 0 (Some 2500) None])
       else if String.eqb endpoint "/api/rtd/arrivals/35255" then
         Api.Ok (response [entry 0 (Some 1600) None;
                           entry 0 (Some 1120) None;
                           entry 0 (Some 2200) None])
       else Api.Threw;
     Api.now := fun _ _ _ => 1000000 |}.

Definition northglenn : App.Station.t :=
  {| App.Station.id := "35254"; App.Station.name := "112th / Northglenn" |}.

Definition eastlake : App.Station.t :=
  {| App.Station.id := "35365"; App.Station.name := "Eastlake & 124th" |}.

Definition union_station : App.Station.t :=
  {| App.Station.id := "34668"; App.Station.name := "Union Station" |}.

(** A route provider that is down. *)
Definition provider_down (body : Api.RoutesBody Z)
    : Api.Fetched Upstream.RoutesResponse.t := Api.Threw.

Definition no_parse (s : string) : option Z := None.

Definition home : Api.LatLng Z := {| Api.lat := Some 39; Api.lng := Some (-105) |}.
Definition garage : Api.LatLng Z := {| Api.lat := Some 40; Api.lng := Some (-104) |}.

(** A feed with two trips calling at stop 34781 out of time order, and a
    third trip calling elsewhere. *)
Definition trip_calling (route stop : string) (t : Z) : Gtfs.Wire.FeedEntity :=
  {| Gtfs.Wire.id := "trip";
     Gtfs.Wire.trip_update := Some
       {| Gtfs.Wire.trip := {| Gtfs.Wire.trip_id := Some "trip"%string;
                               Gtfs.Wire.route_id := Some route;
                               Gtfs.Wire.direction_id := None |};
          Gtfs.Wire.stop_time_update := [ update_at stop (Some (at_time t)) ] |} |}.

Definition union_payload : Gtfs.Wire.FeedMessage :=
  {| Gtfs.Wire.header := {| Gtfs.Wire.timestamp := Some 940 |};
     Gtfs.Wire.entity := [ trip_calling "113G" "34781" 1900;
                           trip_calling "113B" "34782" 1500;
                           trip_calling "113G" "34781" 1300 ] |}.

Definition union_feed : Gtfs.FeedMessage := Gtfs.decode union_payload.

(** A clock that advances by 20 ms from one reading to the next. *)
Definition ticking : Api.Clock := fun i => 1000000 + 20 * Z.of_nat i.


(** Five northbound trains at one stop; every other endpoint fails. *)
Definition crowded_env : Api.Env :=
  {| Api.fetch := fun endpoint =>
       if String.eqb endpoint "/api/rtd/arrivals/35255" then
         Api.Ok (response [entry 0 (Some 2500) None;
                           entry 0 (Some 1300) None;
                           entry 1 (Some 1400) None;
                           entry 0 (Some 3100) None;
                           entry 0 (Some 1900) None;
                           entry 0 (Some 3700) None])
       else Api.Threw;
     Api.now := fun _ _ _ => 1000000 |}.

(** Every endpoint fails. *)
Definition dead_env : Api.Env :=
  {| Api.fetch := fun _ => Api.Threw; Api.now := fun _ _ _ => 1000000 |}.





(** A complete weather answer: 71.6 degrees, feels like 70.2. *)
Definition mild_main : Upstream.WeatherMain.t :=
  {| Upstream.WeatherMain.temp := Some (716 # 10);
     Upstream.WeatherMain.feels_like := Some (702 # 10);
     Upstream.WeatherMain.humidity := Some (40 # 1) |}.

Definition mild_weather : Upstream.WeatherData.t :=
  {| Upstream.WeatherData.main := Some mild_main;
     Upstream.WeatherData.weather :=
       Some [ {| Upstream.WeatherCondition.description := Some "clear sky"%string;
                 Upstream.WeatherCondition.icon := Some "01d"%string |} ];
     Upstream.WeatherData.wind :=
       Some {| Upstream.Wind.speed := Some (35 # 10) |} |}.

Definition weather_up (lat lon : option Z) : Api.Fetched Upstream.WeatherData.t :=
  Api.Ok mild_weather.

(** Track stations and fixes. *)
Definition stop_at (lat lng pos : float) : Track.TrackStation.t :=
  {| Track.TrackStation.id := "s"; Track.TrackStation.name := "s";
     Track.TrackStation.lat := Some lat; Track.TrackStation.lng := Some lng;
     Track.TrackStation.pos := pos |}.

Definition fix_at (lat lng : Track.num) : Track.Vehicle.t :=
  {| Track.Vehicle.routeId := "117N"; Track.Vehicle.directionId := Some 0;
     Track.Vehicle.latitude := lat; Track.Vehicle.longitude := lng;
     Track.Vehicle.label := None |}.

End Examples.

(* ================================================================== *)
(** ** Facts about the JavaScript primitives                            *)
(* ================================================================== *)

Section SortFacts.
Context {A : Type}.
Variable after : A -> A -> bool.

Lemma insert_perm (x : A) (l : list A) :
  Permutation (Js.insert after x l) (x :: l).
Proof.
  induction l as [|y l IH]; simpl.
  - apply Permutation_refl.
  - destruct (after x y).
    + apply perm_trans with (y :: x :: l).
      * now apply perm_skip.
      * apply perm_swap.
    + apply Permutation_refl.
Qed.

Lemma sort_perm (l : list A) : Permutation (Js.sort after l) l.
Proof.
  induction l as [|x l IH]; simpl.
  - constructor.
  - apply perm_trans with (x :: Js.sort after l).
    + apply insert_perm.
    + now apply perm_skip.
Qed.

Lemma sort_length (l : list A) : List.length (Js.sort after l) = List.length l.
Proof. apply Permutation_length, sort_perm. Qed.

Lemma sort_In (x : A) (l : list A) : In x (Js.sort after l) <-> In x l.
Proof.
  split; apply Permutation_in;
    [apply sort_perm | apply Permutation_sym, sort_perm].
Qed.

Lemma sort_Forall (P : A -> Prop) (l : list A) :
  Forall P l -> Forall P (Js.sort after l).
Proof.
  rewrite !Forall_forall. intros H x Hx.
  apply H. now apply sort_In.
Qed.

(** When the comparator decides a total order [le] on the elements at
    hand, the result is ordered by [le]. *)
Section Ordered.
Variable le : A -> A -> Prop.
Variable dom : A -> Prop.
Hypothesis not_after : forall a b, dom a -> dom b -> after a b = false -> le a b.
Hypothesis is_after : forall a b, dom a -> dom b -> after a b = true -> le b a.

Lemma insert_HdRel (x a : A) (l : list A) :
  dom x -> dom a -> Forall dom l ->
  le a x -> HdRel le a l -> HdRel le a (Js.insert after x l).
Proof.
  intros Hx Ha Hl Hax Hhd. destruct l as [|y l]; simpl.
  - now constructor.
  - destruct (after x y); constructor; trivial.
    now inversion Hhd.
Qed.

Lemma insert_Sorted (x : A) (l : list A) :
  dom x -> Forall dom l ->
  Sorted le l -> Sorted le (Js.insert after x l).
Proof.
  intros Hx Hl Hs. induction l as [|y l IH]; simpl.
  - repeat constructor.
  - inversion Hl as [|? ? Hy Hl']; subst.
    inversion Hs as [|? ? Hs' Hhd]; subst.
    destruct (after x y) eqn:E.
    + constructor; [now apply IH|].
      apply insert_HdRel; auto.
    + constructor; [assumption|].
      constructor. now apply not_after.
Qed.

Lemma sort_Sorted (l : list A) :
  Forall dom l -> Sorted le (Js.sort after l).
Proof.
  induction l as [|x l IH]; simpl; intros Hl.
  - constructor.
  - inversion Hl; subst.
    apply insert_Sorted; auto.
    now apply sort_Forall.
Qed.
End Ordered.
End SortFacts.


(* ================================================================== *)
(** ** server.js: the decode loop                                       *)
(* ================================================================== *)

Section DecodeFacts.
Variable fmt : Z -> string.
Variable stopId : string.

Lemma visit_stopUpdate_pushed trip acc su :
  map Server.Arrival.arrivalTime (Server.visit_stopUpdate fmt stopId trip acc su)
  = map Server.Arrival.arrivalTime acc ++ Server.pushed stopId su.
Proof.
  unfold Server.visit_stopUpdate, Server.pushed, Server.guarded_time, Js.push.
  destruct (String.eqb (Gtfs.stopId su) stopId);
    [|now rewrite app_nil_r].
  destruct (Gtfs.arrival su) as [a|]; [|now rewrite app_nil_r].
  destruct (Gtfs.truthy (Gtfs.time a)) eqn:Ht; [|now rewrite app_nil_r].
  destruct (Gtfs.time a) as [t|]; simpl.
  - now rewrite map_app.
  - discriminate Ht.
Qed.

Lemma visit_stopUpdates_pushed trip sus : forall acc,
  map Server.Arrival.arrivalTime
      (fold_left (Server.visit_stopUpdate fmt stopId trip) sus acc)
  = map Server.Arrival.arrivalTime acc ++ flat_map (Server.pushed stopId) sus.
Proof.
  induction sus as [|su sus IH]; intros acc; simpl.
  - now rewrite app_nil_r.
  - rewrite IH, visit_stopUpdate_pushed. now rewrite <- app_assoc.
Qed.

Lemma visit_entities_pushed entities : forall acc,
  map Server.Arrival.arrivalTime (fold_left (Server.visit_entity fmt stopId) entities acc)
  = map Server.Arrival.arrivalTime acc
    ++ flat_map (Server.pushed stopId)
         (flat_map (fun e => match Gtfs.tripUpdate e with
                             | Some tu => Server.stopTimeUpdates tu
                             | None => []
                             end) entities).
Proof.
  induction entities as [|e entities IH]; intros acc; simpl.
  - now rewrite app_nil_r.
  - rewrite IH. unfold Server.visit_entity.
    destruct (Gtfs.tripUpdate e) as [tu|]; simpl; [|reflexivity].
    rewrite visit_stopUpdates_pushed, flat_map_app.
    now rewrite <- app_assoc.
Qed.

(** The loop pushes once per stop-time update that passes its tests. *)
Lemma parseArrivals_pushed feed :
  map Server.Arrival.arrivalTime (Server.parseArrivals fmt feed stopId)
  = flat_map (Server.pushed stopId) (Server.all_stopUpdates feed).
Proof.
  unfold Server.parseArrivals, Server.all_stopUpdates.
  now rewrite visit_entities_pushed.
Qed.

(** A decoded arrival event always passes the guard: its [time] is a
    [Long], whether the message carries one or not. *)
Lemma pushed_decoded su :
  Server.pushed stopId (Gtfs.decodeStopTimeUpdate su)
  = Server.decoded_times stopId su.
Proof.
  unfold Server.pushed, Server.decoded_times, Server.guarded_time.
  cbn [Gtfs.decodeStopTimeUpdate Gtfs.stopId Gtfs.arrival].
  destruct (String.eqb (Gtfs.text (Gtfs.Wire.stop_id su)) stopId); [|reflexivity].
  destruct (Gtfs.Wire.arrival su) as [a|]; [|reflexivity].
  cbn [option_map Gtfs.decodeEvent Gtfs.time Gtfs.int64].
  now destruct (Gtfs.Wire.time a).
Qed.

Lemma all_stopUpdates_decoded payload :
  Server.all_stopUpdates (Gtfs.decode payload)
  = map Gtfs.decodeStopTimeUpdate (Server.feed_stopUpdates payload).
Proof.
  unfold Server.all_stopUpdates, Server.feed_stopUpdates, Gtfs.decode.
  cbn [Gtfs.entity].
  induction (Gtfs.Wire.entity payload) as [|e es IH]; [reflexivity|].
  cbn [map flat_map]. rewrite IH, map_app. f_equal.
  unfold Gtfs.decodeEntity. cbn [Gtfs.tripUpdate].
  now destruct (Gtfs.Wire.trip_update e).
Qed.

(** The handler on a decoded message, in terms of the message. *)
Lemma parseArrivals_decoded payload :
  map Server.Arrival.arrivalTime
      (Server.parseArrivals fmt (Gtfs.decode payload) stopId)
  = flat_map (Server.decoded_times stopId) (Server.feed_stopUpdates payload).
Proof.
  rewrite parseArrivals_pushed, all_stopUpdates_decoded.
  induction (Server.feed_stopUpdates payload) as [|su sus IH]; [reflexivity|].
  cbn [map flat_map]. now rewrite IH, pushed_decoded.
Qed.

(** Where every stop-time update names its stop and every arrival event
    carries a time, the handler emits what the specification asks for. *)
Lemma decode_agrees_when_times_are_set payload :
  Forall (fun su => Gtfs.Wire.stop_id su <> None
                    /\ forall a, Gtfs.Wire.arrival su = Some a ->
                                 Gtfs.Wire.time a <> None)
         (Server.feed_stopUpdates payload) ->
  map Server.Arrival.arrivalTime
      (Server.parseArrivals fmt (Gtfs.decode payload) stopId)
  = Server.spec_decode stopId payload.
Proof.
  intros H. rewrite parseArrivals_decoded. unfold Server.spec_decode.
  induction H as [|su sus [Hid Ht] _ IH]; [reflexivity|].
  cbn [flat_map]. rewrite IH. f_equal.
  unfold Server.decoded_times, Server.spec_emitted, Server.spec_at,
    Server.spec_arrival_time.
  destruct (Gtfs.Wire.stop_id su) as [s|]; [|contradiction].
  cbn [Gtfs.text]. destruct (String.eqb s stopId); [|reflexivity].
  destruct (Gtfs.Wire.arrival su) as [a|]; [|reflexivity].
  specialize (Ht a eq_refl). now destruct (Gtfs.Wire.time a).
Qed.
End DecodeFacts.

(** C1.  The specification emits nothing for a stop-time update that lacks
    an arrival time; the handler does.  The decoder hands an arrival event
    without [time] over with a [Long] holding 0 in its place, which passes
    the guard [arrival && arrival.time]: for every message the handler
    emits one arrival per stop-time update at the requested stop that has an
    arrival event, with the time the event carries or with 0.  For a feed
    whose one update at the stop gives only a delay, the specification has
    no record and the handler's [arrivals], sorted or not, hold one record
    of epoch second 0.  Scenario B itself comes out as specified: the
    update without arrival event is skipped and the one with arrival time
    [T + 300] yields the single epoch [T + 300]. *)
Theorem decode_emits_arrival_for_absent_time :
  forall (fmt : Z -> string) (stopId : string) (T : Z),
    (forall payload : Gtfs.Wire.FeedMessage,
       map Server.Arrival.arrivalTime
           (Server.parseArrivals fmt (Gtfs.decode payload) stopId)
       = flat_map (Server.decoded_times stopId) (Server.feed_stopUpdates payload))
    /\ Server.spec_decode stopId (Examples.delay_only_feed T stopId) = []
    /\ map Server.Arrival.arrivalTime
           (Server.parseArrivals fmt
              (Gtfs.decode (Examples.delay_only_feed T stopId)) stopId)
       = [0]
    /\ (forall nowMs stampMs : Z,
          map Server.Arrival.arrivalTime
              (Server.Result.arrivals
                 (Server.gline fmt (Gtfs.decode (Examples.delay_only_feed T stopId))
                               nowMs stampMs stopId))
          = [0])
    /\ Server.spec_decode stopId (Examples.scenarioB_feed T stopId) = [T + 300]
    /\ map Server.Arrival.arrivalTime
           (Server.parseArrivals fmt
              (Gtfs.decode (Examples.scenarioB_feed T stopId)) stopId)
       = [T + 300].
Proof.
  intros fmt stopId T.
  assert (Hbug : map Server.Arrival.arrivalTime
                   (Server.parseArrivals fmt
                      (Gtfs.decode (Examples.delay_only_feed T stopId)) stopId)
                 = [0]).
  { rewrite parseArrivals_decoded. cbn.
    unfold Server.decoded_times. cbn. now rewrite String.eqb_refl. }
  split; [|split; [|split; [|split; [|split]]]].
  - intros payload. apply parseArrivals_decoded.
  - unfold Server.spec_decode. cbn.
    unfold Server.spec_emitted, Server.spec_at. cbn.
    now rewrite String.eqb_refl.
  - exact Hbug.
  - intros nowMs stampMs. unfold Server.gline. cbn [Server.Result.arrivals].
    destruct (Server.parseArrivals fmt
                (Gtfs.decode (Examples.delay_only_feed T stopId)) stopId)
      as [|a [|b l]]; try discriminate Hbug.
    exact Hbug.
  - unfold Server.spec_decode. cbn.
    unfold Server.spec_emitted, Server.spec_at. cbn.
    now rewrite String.eqb_refl.
  - rewrite parseArrivals_decoded. cbn.
    unfold Server.decoded_times. cbn. now rewrite String.eqb_refl.
Qed.

(* ================================================================== *)
(** ** api.js: normalisation of JSON arrival entries                    *)
(* ================================================================== *)

Lemma normalize_routeId nowMs e :
  Api.Arrival.routeId (Api.normalize nowMs e) = Upstream.ArrivalEntry.routeId e.
Proof. reflexivity. Qed.

(** Every record of the mapped list is some entry normalised at one of
    the readings the map takes. *)
Lemma mapNormalize_In clock a entries : forall i,
  In a (Api.mapNormalize clock i entries) ->
  exists e j, In e entries
              /\ (i <= j < i + List.length entries)%nat
              /\ a = Api.normalize (clock j) e.
Proof.
  induction entries as [|e entries IH]; intros i Ha; [contradiction|].
  destruct Ha as [<-|Ha].
  - exists e, i. split; [now left|]. split; [simpl; lia|reflexivity].
  - destruct (IH _ Ha) as (e' & j & He' & Hj & ->).
    exists e', j. split; [now right|]. split; [simpl; lia|reflexivity].
Qed.

Lemma normalized_route_filter clock routeId entries :
  Forall (fun a => Api.Arrival.routeId a = routeId)
         (Api.mapNormalize clock 0 (filter (Api.matches routeId) entries)).
Proof.
  apply Forall_forall. intros a Ha.
  apply mapNormalize_In in Ha. destruct Ha as (e & j & He & _ & ->).
  apply filter_In in He. destruct He as [_ He].
  rewrite normalize_routeId. now apply String.eqb_eq.
Qed.

(** C2.  The arrivals produced by the normalisation step all carry the
    requested route identifier: the result is a rearrangement of the
    normalised entries that pass the route filter, entries of another route
    being dropped; this holds for the list returned by [getStationArrivals]
    whatever the endpoint answers, and an answer with entries of other
    routes is not turned into the fallback result. *)
Theorem normalize_keeps_only_requested_route :
  forall (clock : Api.Clock) (routeId : string)
         (entries : option (list Upstream.ArrivalEntry.t))
         (env : Api.Env) (stopId : string),
    Forall (fun a => Api.Arrival.routeId a = routeId)
           (Api.normalizeArrivals clock routeId entries)
    /\ Permutation
         (Api.normalizeArrivals clock routeId entries)
         (Api.mapNormalize clock 0
              (filter (fun e => String.eqb (Upstream.ArrivalEntry.routeId e) routeId)
                      (match entries with Some l => l | None => [] end)))
    /\ Forall (fun a => Api.Arrival.routeId a = routeId)
              (Api.StationArrivals.arrivals
                 (Api.getStationArrivals env stopId routeId))
    /\ (forall data : Upstream.ArrivalsResponse.t,
          Api.StationArrivals._isFallback
            (Api.getStationArrivals
               {| Api.fetch := fun _ => Api.Ok data; Api.now := fun _ _ => clock |}
               stopId routeId) = false).
Proof.
  intros clock routeId entries env stopId.
  assert (F : forall n es,
             Forall (fun a => Api.Arrival.routeId a = routeId)
                    (Api.normalizeArrivals n routeId es)).
  { intros n es. unfold Api.normalizeArrivals.
    apply sort_Forall, normalized_route_filter. }
  split; [|split; [|split]].
  - apply F.
  - unfold Api.normalizeArrivals. apply sort_perm.
  - unfold Api.getStationArrivals.
    destruct (Api.fetch env (Api.endpoint stopId routeId)); simpl.
    + apply F.
    + constructor.
  - reflexivity.
Qed.

(** When the entry reports a non-zero arrival time, the record keeps it and
    the countdown is the rounded quotient of the claim. *)
Lemma normalize_with_arrivalTime nowMs e t :
  Upstream.ArrivalEntry.arrivalTime e = Some t -> t <> 0 ->
  Api.Arrival.time (Api.normalize nowMs e) = Some t
  /\ Api.Arrival.minutesAway (Api.normalize nowMs e)
     = Some (Js.Math_round_div (1000 * t - nowMs) 60000).
Proof.
  intros Ht Hnz. unfold Api.normalize, Js.or_num; simpl. rewrite Ht; simpl.
  destruct (Z.eqb_spec t 0); [contradiction|]. now split.
Qed.

(** Scenario A: arrivals two and ten minutes ahead of the clock, both of the
    requested route, come back as two records with countdowns 2 and 10. *)
Example two_arrivals_two_and_ten_minutes :
  map Api.Arrival.minutesAway
      (Api.normalizeArrivals Examples.ticking "117N"
         (Some [Examples.entry 0 (Some 1120) None;
                Examples.entry 0 (Some 1600) None]))
  = [Some 2; Some 10].
Proof. reflexivity. Qed.

(** The countdown stored in the record is not clamped: a train a little more
    than half a minute in the past is at minus one. *)
Example minutesAway_negative :
  Api.Arrival.minutesAway
    (Api.normalize 1000000 (Examples.entry 0 (Some 940) None)) = Some (-1).
Proof. reflexivity. Qed.

(** C3.  An entry without [arrivalTime] and with [departureTime] 1120, read
    at clock 1000 s, passes the route filter and is normalised to a record
    whose epoch time is the departure time 1120, but whose [minutesAway] is
    [NaN], whereas [round((1120 - 1000) / 60)] is 2: the countdown is
    computed from [arrivalTime] alone and misses the fallback. *)
Theorem minutesAway_misses_departure_fallback :
  Api.matches "117N" Examples.departure_only = true
  /\ Api.Arrival.time (Api.normalize 1000000 Examples.departure_only) = Some 1120
  /\ Api.Arrival.minutesAway (Api.normalize 1000000 Examples.departure_only) = None
  /\ Js.Math_round_div (1000 * 1120 - 1000000) 60000 = 2.
Proof. repeat split. Qed.

(* ================================================================== *)
(** ** app.js: merging the platforms of an N-line station               *)
(* ================================================================== *)

Section MergeFacts.
Variable env : Api.Env.
Variable lineId : string.
Variable allowed : list string.

(** The loop over the platforms appends, per allowed direction, what each
    platform reports for it. *)
Lemma mergePlatform_loop platformIds : forall acc,
  fold_left (App.mergePlatform env lineId allowed) platformIds acc
  = (if App.includes allowed "northbound"
     then fst acc ++ flat_map (fun p => Api.LineArrivals.northbound
                                          (Api.getLineArrivals env p lineId))
                              platformIds
     else fst acc,
     if App.includes allowed "southbound"
     then snd acc ++ flat_map (fun p => Api.LineArrivals.southbound
                                          (Api.getLineArrivals env p lineId))
                              platformIds
     else snd acc).
Proof.
  induction platformIds as [|p ps IH]; intros [nb sb]; simpl.
  - rewrite !app_nil_r.
    now destruct (App.includes allowed "northbound"),
                 (App.includes allowed "southbound").
  - rewrite IH. unfold App.mergePlatform, Js.push_all; simpl.
    destruct (App.includes allowed "northbound"),
             (App.includes allowed "southbound");
      now rewrite <- ?app_assoc.
Qed.
End MergeFacts.

Lemma mergePlatforms_northbound env lineId station pc :
  App.StationBoard.northbound (App.mergePlatforms env lineId station pc)
  = if App.includes (App.PlatformConfig.directions pc) "northbound"
    then Js.sort Api.byTime
           (flat_map (fun p => Api.LineArrivals.northbound
                                 (Api.getLineArrivals env p lineId))
                     (App.PlatformConfig.platforms pc))
    else [].
Proof.
  unfold App.mergePlatforms; simpl. rewrite mergePlatform_loop; simpl.
  now destruct (App.includes (App.PlatformConfig.directions pc) "northbound").
Qed.

Lemma mergePlatforms_southbound env lineId station pc :
  App.StationBoard.southbound (App.mergePlatforms env lineId station pc)
  = if App.includes (App.PlatformConfig.directions pc) "southbound"
    then Js.sort Api.byTime
           (flat_map (fun p => Api.LineArrivals.southbound
                                 (Api.getLineArrivals env p lineId))
                     (App.PlatformConfig.platforms pc))
    else [].
Proof.
  unfold App.mergePlatforms; simpl. rewrite mergePlatform_loop; simpl.
  now destruct (App.includes (App.PlatformConfig.directions pc) "southbound").
Qed.

(** C4.  The merged board of an N-line station receives, per direction, the
    arrivals its platforms report for that direction when the direction is
    declared for them, and nothing at all otherwise.  With the shipped
    configuration, the northbound list of Eastlake (declared southbound
    only) and the southbound list of Union Station (declared northbound
    only) are empty whatever the platforms report. *)
Theorem merge_respects_declared_directions :
  forall (env : Api.Env) (lineId : string) (station : App.Station.t)
         (pc : App.PlatformConfig.t),
    Permutation
      (App.StationBoard.northbound (App.mergePlatforms env lineId station pc))
      (if App.includes (App.PlatformConfig.directions pc) "northbound"
       then flat_map (fun p => Api.LineArrivals.northbound
                                 (Api.getLineArrivals env p lineId))
                     (App.PlatformConfig.platforms pc)
       else [])
    /\ Permutation
      (App.StationBoard.southbound (App.mergePlatforms env lineId station pc))
      (if App.includes (App.PlatformConfig.directions pc) "southbound"
       then flat_map (fun p => Api.LineArrivals.southbound
                                 (Api.getLineArrivals env p lineId))
                     (App.PlatformConfig.platforms pc)
       else [])
    /\ App.StationBoard.northbound
         (App.fetchStation env App.config "117N" Examples.eastlake) = []
    /\ App.StationBoard.southbound
         (App.fetchStation env App.config "117N" Examples.union_station) = [].
Proof.
  intros env lineId station pc. split; [|split; [|split]].
  - rewrite mergePlatforms_northbound.
    destruct (App.includes _ "northbound"); [apply sort_perm | constructor].
  - rewrite mergePlatforms_southbound.
    destruct (App.includes _ "southbound"); [apply sort_perm | constructor].
  - reflexivity.
  - reflexivity.
Qed.

Lemma chronological_trans a b c :
  Api.chronological a b -> Api.chronological b c -> Api.chronological a c.
Proof.
  unfold Api.chronological.
  destruct (Api.Arrival.time a), (Api.Arrival.time b), (Api.Arrival.time c);
    try tauto; lia.
Qed.

Lemma byTime_false_chronological a b :
  Api.Arrival.time a <> None -> Api.Arrival.time b <> None ->
  Api.byTime a b = false -> Api.chronological a b.
Proof.
  unfold Api.byTime, Api.chronological.
  destruct (Api.Arrival.time a), (Api.Arrival.time b); try congruence.
  intros _ _ H. apply Z.ltb_ge in H. lia.
Qed.

Lemma byTime_true_chronological a b :
  Api.Arrival.time a <> None -> Api.Arrival.time b <> None ->
  Api.byTime a b = true -> Api.chronological b a.
Proof.
  unfold Api.byTime, Api.chronological.
  destruct (Api.Arrival.time a), (Api.Arrival.time b); try congruence.
  intros _ _ H. apply Z.ltb_lt in H. lia.
Qed.

(** Sorting by time puts timed arrivals in chronological order. *)
Lemma sort_byTime_chronological l :
  Forall (fun a => Api.Arrival.time a <> None) l ->
  StronglySorted Api.chronological (Js.sort Api.byTime l).
Proof.
  intros Hl. apply Sorted_StronglySorted.
  - exact chronological_trans.
  - apply sort_Sorted with (dom := fun a => Api.Arrival.time a <> None);
      auto using byTime_false_chronological, byTime_true_chronological.
Qed.

Section ListFacts.
Context {A : Type}.

Lemma In_firstn (n : nat) (x : A) : forall l, In x (firstn n l) -> In x l.
Proof.
  induction n as [|n IH]; intros [|y l]; simpl; try tauto.
  intros [->|H]; [now left | right; now apply IH].
Qed.

Lemma StronglySorted_filter (R : A -> A -> Prop) (f : A -> bool) l :
  StronglySorted R l -> StronglySorted R (filter f l).
Proof.
  induction 1 as [|x l Hs IH Hx]; simpl; [constructor|].
  destruct (f x); [|assumption].
  constructor; [assumption|].
  rewrite Forall_forall in *. intros y Hy.
  apply Hx. now apply filter_In in Hy.
Qed.

Lemma StronglySorted_firstn (R : A -> A -> Prop) n : forall l,
  StronglySorted R l -> StronglySorted R (firstn n l).
Proof.
  induction n as [|n IH]; intros l Hs; simpl; [constructor|].
  destruct l as [|x l]; [constructor|].
  inversion Hs as [|? ? Hs' Hx]; subst.
  constructor; [now apply IH|].
  rewrite Forall_forall in *. intros y Hy.
  apply Hx. revert Hy. apply In_firstn.
Qed.


Lemma Forall_flat_map {B : Type} (P : B -> Prop) (f : A -> list B) l :
  (forall x, In x l -> Forall P (f x)) -> Forall P (flat_map f l).
Proof.
  intros H. apply Forall_forall. intros y Hy.
  apply in_flat_map in Hy. destruct Hy as (x & Hx & Hy).
  specialize (H x Hx). rewrite Forall_forall in H. now apply H.
Qed.

Lemma flat_map_length_le {B : Type} (f : A -> list B) (k : nat) l :
  (forall x, List.length (f x) <= k)%nat ->
  (List.length (flat_map f l) <= k * List.length l)%nat.
Proof.
  intros H. induction l as [|x l IH]; simpl; [lia|].
  rewrite length_app. specialize (H x). lia.
Qed.
End ListFacts.

(** Expose the two slices of [getLineArrivals] without unfolding them. *)
Ltac open_lineArrivals :=
  unfold Api.getLineArrivals, Js.slice0;
  cbn [Api.LineArrivals.northbound Api.LineArrivals.southbound
       Api.LineArrivals.data].

Section LineArrivalsFacts.
Variable env : Api.Env.
Variable lineId : string.

(** Each direction of one fetch is a prefix of the matching arrivals. *)
Lemma northbound_timed p :
  Forall (fun a => Api.Arrival.time a <> None)
         (Api.StationArrivals.arrivals (Api.getStationArrivals env p lineId)) ->
  Forall (fun a => Api.Arrival.time a <> None)
         (Api.LineArrivals.northbound (Api.getLineArrivals env p lineId)).
Proof.
  intros H. open_lineArrivals.
  rewrite Forall_forall in *. intros a Ha.
  apply In_firstn, filter_In in Ha. now apply H.
Qed.

Lemma southbound_timed p :
  Forall (fun a => Api.Arrival.time a <> None)
         (Api.StationArrivals.arrivals (Api.getStationArrivals env p lineId)) ->
  Forall (fun a => Api.Arrival.time a <> None)
         (Api.LineArrivals.southbound (Api.getLineArrivals env p lineId)).
Proof.
  intros H. open_lineArrivals.
  rewrite Forall_forall in *. intros a Ha.
  apply In_firstn, filter_In in Ha. now apply H.
Qed.

(** The arrivals of one fetch are in chronological order. *)
Lemma station_arrivals_sorted p :
  Forall (fun a => Api.Arrival.time a <> None)
         (Api.StationArrivals.arrivals (Api.getStationArrivals env p lineId)) ->
  StronglySorted Api.chronological
    (Api.StationArrivals.arrivals (Api.getStationArrivals env p lineId)).
Proof.
  unfold Api.getStationArrivals.
  destruct (Api.fetch env (Api.endpoint p lineId)); simpl; [|constructor].
  unfold Api.normalizeArrivals. intros H.
  apply sort_byTime_chronological.
  rewrite Forall_forall in *. intros a Ha. apply H. now apply sort_In.
Qed.

Lemma northbound_length p :
  (List.length (Api.LineArrivals.northbound (Api.getLineArrivals env p lineId)) <= 3)%nat.
Proof. open_lineArrivals. apply firstn_le_length. Qed.

Lemma southbound_length p :
  (List.length (Api.LineArrivals.southbound (Api.getLineArrivals env p lineId)) <= 3)%nat.
Proof. open_lineArrivals. apply firstn_le_length. Qed.
End LineArrivalsFacts.

(** C5.  On the board built for a station, merged across platforms or fetched
    from its single stop, the northbound and the southbound list are each in
    non-decreasing order of epoch time, and so is the arrival list of every
    single platform fetch, provided every arrival reported for the station's
    platforms carries an epoch time. *)
Theorem board_directions_nondecreasing_in_time :
  forall (env : Api.Env) (cfg : App.Config.t) (lineId : string)
         (station : App.Station.t),
    (forall p, In p (App.platformsOf cfg lineId station) ->
       Forall (fun a => Api.Arrival.time a <> None)
              (Api.StationArrivals.arrivals (Api.getStationArrivals env p lineId))) ->
    StronglySorted Api.chronological
      (App.StationBoard.northbound (App.fetchStation env cfg lineId station))
    /\ StronglySorted Api.chronological
      (App.StationBoard.southbound (App.fetchStation env cfg lineId station))
    /\ (forall p, In p (App.platformsOf cfg lineId station) ->
          StronglySorted Api.chronological
            (Api.StationArrivals.arrivals (Api.getStationArrivals env p lineId))).
Proof.
  intros env cfg lineId station Hall.
  assert (Hp : forall p, In p (App.platformsOf cfg lineId station) ->
            StronglySorted Api.chronological
              (Api.StationArrivals.arrivals (Api.getStationArrivals env p lineId))).
  { intros p Hin. now apply station_arrivals_sorted, Hall. }
  rewrite <- and_assoc. split; [|exact Hp]. clear Hp. revert Hall.
  unfold App.platformsOf, App.fetchStation.
  assert (Std : (forall p, In p [App.Station.id station] ->
             Forall (fun a => Api.Arrival.time a <> None)
               (Api.StationArrivals.arrivals (Api.getStationArrivals env p lineId))) ->
          StronglySorted Api.chronological
            (App.StationBoard.northbound (App.standardFetch env lineId station))
          /\ StronglySorted Api.chronological
            (App.StationBoard.southbound (App.standardFetch env lineId station))).
  { intros H. specialize (H _ (or_introl eq_refl)).
    apply station_arrivals_sorted in H.
    unfold App.standardFetch.
    cbn [App.StationBoard.northbound App.StationBoard.southbound].
    open_lineArrivals.
    split; now apply StronglySorted_firstn, StronglySorted_filter. }
  destruct (String.eqb lineId "117N"); [|exact Std].
  destruct (App.lookup (App.Station.id station) (App.Config.nLinePlatforms cfg))
    as [pc|]; [|exact Std].
  intros H. rewrite mergePlatforms_northbound, mergePlatforms_southbound.
  split.
  - destruct (App.includes _ "northbound"); [|constructor].
    apply sort_byTime_chronological, Forall_flat_map.
    intros p Hp. now apply northbound_timed, H.
  - destruct (App.includes _ "southbound"); [|constructor].
    apply sort_byTime_chronological, Forall_flat_map.
    intros p Hp. now apply southbound_timed, H.
Qed.

(** The hypothesis of C5 holds of an environment where two platforms report
    timed arrivals out of order; the merged lists come out ordered. *)
Lemma board_directions_nondecreasing_in_time_witness :
  StronglySorted Api.chronological
    (App.StationBoard.northbound
       (App.fetchStation Examples.busy_env App.config "117N" Examples.northglenn))
  /\ StronglySorted Api.chronological
    (App.StationBoard.southbound
       (App.fetchStation Examples.busy_env App.config "117N" Examples.northglenn)).
Proof.
  refine ((fun H => conj (proj1 H) (proj1 (proj2 H))) _).
  apply (board_directions_nondecreasing_in_time
           Examples.busy_env App.config "117N" Examples.northglenn).
  intros p Hp. simpl in Hp.
  destruct Hp as [<-|[<-|[]]]; vm_compute; repeat constructor; discriminate.
Defined.

(** C6, as claimed, fails: with two platforms that each report three
    northbound trains, the merged northbound list of 112th / Northglenn has
    six entries. *)
Lemma merged_direction_exceeds_three :
  List.length
    (App.StationBoard.northbound
       (App.fetchStation Examples.busy_env App.config "117N" Examples.northglenn))
  = 6%nat.
Proof. reflexivity. Qed.

(** C6, amended.  Every fetch of one platform keeps at most three arrivals
    per direction, and the board of a station holds, per direction, at most
    three arrivals for each stop identifier it was fetched from: at most
    three on a board fetched from a single stop. *)
Theorem board_direction_at_most_three_per_platform :
  forall (env : Api.Env) (cfg : App.Config.t) (lineId : string)
         (station : App.Station.t) (p : string),
    (List.length (Api.LineArrivals.northbound (Api.getLineArrivals env p lineId)) <= 3
     /\ List.length (Api.LineArrivals.southbound (Api.getLineArrivals env p lineId)) <= 3
     /\ List.length (App.StationBoard.northbound
                       (App.fetchStation env cfg lineId station))
        <= 3 * List.length (App.platformsOf cfg lineId station)
     /\ List.length (App.StationBoard.southbound
                       (App.fetchStation env cfg lineId station))
        <= 3 * List.length (App.platformsOf cfg lineId station))%nat.
Proof.
  intros env cfg lineId station p.
  split; [apply northbound_length|].
  split; [apply southbound_length|].
  unfold App.platformsOf, App.fetchStation.
  assert (Std :
    (List.length (App.StationBoard.northbound (App.standardFetch env lineId station))
       <= 3 * List.length [App.Station.id station]
     /\ List.length (App.StationBoard.southbound (App.standardFetch env lineId station))
       <= 3 * List.length [App.Station.id station])%nat).
  { unfold App.standardFetch.
    cbn [App.StationBoard.northbound App.StationBoard.southbound List.length].
    split; [apply northbound_length | apply southbound_length]. }
  destruct (String.eqb lineId "117N"); [|exact Std].
  destruct (App.lookup (App.Station.id station) (App.Config.nLinePlatforms cfg))
    as [pc|]; [|exact Std].
  rewrite mergePlatforms_northbound, mergePlatforms_southbound.
  split.
  - destruct (App.includes _ "northbound"); [|simpl; lia].
    rewrite sort_length. apply flat_map_length_le. apply northbound_length.
  - destruct (App.includes _ "southbound"); [|simpl; lia].
    rewrite sort_length. apply flat_map_length_le. apply southbound_length.
Qed.

(* ================================================================== *)
(** ** app.js: status label of a displayed arrival                      *)
(* ================================================================== *)

(** Clamping the countdown at zero does not move it across a positive
    threshold. *)
Lemma js_le_displayMinutes train k :
  0 <= k ->
  App.js_le (App.displayMinutes train) k
  = App.js_le (Api.Arrival.minutesAway train) k.
Proof.
  intros Hk. unfold App.displayMinutes, App.js_le.
  destruct (Api.Arrival.minutesAway train) as [m|]; simpl; [|reflexivity].
  destruct (Z.leb_spec (Z.max 0 m) k), (Z.leb_spec m k); trivial; lia.
Qed.

(** C8.  The status label of a displayed arrival is a function of its
    [minutesAway] alone, by the fixed thresholds: at most 1 gives
    "Arriving", above 1 and at most 5 gives "Approaching", anything else
    (a larger count, or no number at all) gives "Scheduled". *)
Theorem status_label_by_fixed_thresholds :
  forall train : Api.Arrival.t,
    App.trainStatus train
    = match Api.Arrival.minutesAway train with
      | Some m => if m <=? 1 then "Arriving"%string
                  else if m <=? 5 then "Approaching"%string
                  else "Scheduled"%string
      | None => "Scheduled"%string
      end.
Proof.
  intros train. unfold App.trainStatus.
  rewrite !js_le_displayMinutes by lia.
  unfold App.js_le. now destruct (Api.Arrival.minutesAway train).
Qed.

(* ================================================================== *)
(** ** api.js: drive-time fallback                                      *)
(* ================================================================== *)


(** C9.  When the call to the route provider throws, or answers without a
    first route, [getDriveTimes] returns the fixed estimate: 30 minutes,
    15 miles, "Estimated", flagged as fallback. *)
Theorem getDriveTimes_falls_back_on_failure :
  forall (Coord : Type) (parseInt : string -> option Z)
         (fetchRoutes : Api.RoutesBody Coord -> Api.Fetched Upstream.RoutesResponse.t)
         (origin destination : Api.LatLng Coord) (avoidHighways : bool),
    (fetchRoutes (Api.routesBody Coord origin destination avoidHighways) = Api.Threw
     \/ exists data,
          fetchRoutes (Api.routesBody Coord origin destination avoidHighways)
            = Api.Ok data
          /\ (Upstream.RoutesResponse.routes data = None
              \/ Upstream.RoutesResponse.routes data = Some [])) ->
    Api.getDriveTimes Coord parseInt fetchRoutes origin destination avoidHighways
    = {| Api.DriveTime.minutes := Some 30;
         Api.DriveTime.distance := Some 15;
         Api.DriveTime.description := "Estimated";
         Api.DriveTime._isFallback := true |}.
Proof.
  intros Coord parseInt fetchRoutes origin destination avoidHighways H.
  unfold Api.getDriveTimes.
  destruct H as [-> | (data & -> & [-> | ->])]; reflexivity.
Qed.

(** With the provider down, the morning commute shows the estimate. *)
Lemma getDriveTimes_falls_back_on_failure_witness :
  Api.getDriveTimes Z Examples.no_parse Examples.provider_down
                    Examples.home Examples.garage false
  = {| Api.DriveTime.minutes := Some 30;
       Api.DriveTime.distance := Some 15;
       Api.DriveTime.description := "Estimated";
       Api.DriveTime._isFallback := true |}.
Proof.
  apply (getDriveTimes_falls_back_on_failure
           Z Examples.no_parse Examples.provider_down
           Examples.home Examples.garage false).
  left. reflexivity.
Defined.
(* ================================================================== *)
(** ** Doubles: what an operation returns, by sign and shape            *)
(* ================================================================== *)

Section Rounding.
Local Open Scope Z_scope.








End Rounding.









(** *** The tests of the program on a double *)

Section Tests.
Local Open Scope float_scope.






Lemma ltb_leb x y : (x <? y) = true -> (x <=? y) = true.
Proof.
  rewrite ltb_spec, leb_spec. unfold SFltb, SFleb.
  now destruct (SFcompare (Prim2SF x) (Prim2SF y)) as [[| |]|].
Qed.

Lemma classify_PZero x : classify x = PZero -> Prim2SF x = S754_zero false.
Proof.
  rewrite classify_spec. unfold SF64classify, SFclassify.
  destruct (Prim2SF x) as [[|]|[|]| |[|] m e]; try discriminate; try reflexivity;
    destruct (_ =? _)%Z; discriminate.
Qed.

Lemma classify_NZero x : classify x = NZero -> Prim2SF x = S754_zero true.
Proof.
  rewrite classify_spec. unfold SF64classify, SFclassify.
  destruct (Prim2SF x) as [[|]|[|]| |[|] m e]; try discriminate; try reflexivity;
    destruct (_ =? _)%Z; discriminate.
Qed.

(** [Math.max(1, Math.min(99, x))] is [NaN] for [NaN] and lies in [1, 99]
    for every number. *)
Lemma clamp_nan x :
  is_nan x = true -> Track.Math_max 1 (Track.Math_min 99 x) = nan.
Proof.
  intros H. unfold Track.Math_min. rewrite H, orb_true_r. reflexivity.
Qed.

Lemma clamp_in_range x :
  is_nan x = false ->
  Track.inRange (Track.Math_max 1 (Track.Math_min 99 x)) = true.
Proof.
  intros H. unfold Track.Math_min. rewrite H.
  change (is_nan 99 || false) with false. cbv iota.
  destruct (99 <? x) eqn:Hhi; [reflexivity|].
  destruct (x <? 99) eqn:Hlo.
  - unfold Track.Math_max. rewrite H.
    change (is_nan 1 || false) with false. cbv iota.
    destruct (x <? 1) eqn:H1; [reflexivity|].
    destruct (1 <? x) eqn:H2.
    + unfold Track.inRange. now rewrite (ltb_leb _ _ H2), (ltb_leb _ _ Hlo).
    + destruct (classify x) eqn:Hc; try reflexivity.
      apply classify_PZero in Hc.
      rewrite ltb_spec, Hc in H1. discriminate H1.
  - destruct (classify x) eqn:Hc; try reflexivity.
    apply classify_NZero in Hc.
    rewrite ltb_spec, Hc in Hlo. discriminate Hlo.
Qed.

(** The clamp, either way. *)
Lemma clamp_cases x :
  let r := Track.Math_max 1 (Track.Math_min 99 x) in
  is_nan r = true \/ Track.inRange r = true.
Proof.
  intros r. subst r. destruct (is_nan x) eqn:H.
  - left. now rewrite clamp_nan.
  - right. now apply clamp_in_range.
Qed.





End Tests.
(* ================================================================== *)
(** ** renderVisualTrack: where a marker is drawn                       *)
(* ================================================================== *)

Section TrackFacts.
Local Open Scope float_scope.


(** The fallback branches of the guard. *)
Lemma fallback_without_fix stations vehicle :
  Track.truthy (Track.Vehicle.latitude vehicle) = false
  \/ Track.truthy (Track.Vehicle.longitude vehicle) = false ->
  Track.getTrainPosition stations vehicle = Track.Returns 50.
Proof.
  unfold Track.getTrainPosition. intros [H|H].
  - now rewrite H.
  - rewrite H. now destruct (Track.truthy (Track.Vehicle.latitude vehicle)).
Qed.

Lemma fallback_without_first_lat first rest vehicle :
  Track.truthy (Track.TrackStation.lat first) = false ->
  Track.getTrainPosition (first :: rest) vehicle = Track.Returns 50.
Proof.
  unfold Track.getTrainPosition. intros H. rewrite H.
  now destruct (Track.truthy (Track.Vehicle.latitude vehicle)),
               (Track.truthy (Track.Vehicle.longitude vehicle)).
Qed.

Lemma fallback_unsurveyed stations vehicle :
  stations <> [] -> Track.unsurveyed stations ->
  Track.getTrainPosition stations vehicle = Track.Returns 50.
Proof.
  destruct stations as [|first rest]; [contradiction|]. intros _ H.
  inversion H as [|? ? [Hlat _] _]; subst.
  apply fallback_without_first_lat. now rewrite Hlat.
Qed.

(** The distance records carry the indices of their stations. *)
Lemma distances_idx a b l : forall i,
  map Track.Dist.idx (Track.mapi_from (Track.distanceTo a b) i l)
  = seq i (List.length l).
Proof.
  induction l as [|s l IH]; intros i; simpl; [reflexivity|].
  now rewrite IH.
Qed.

Lemma distances_length a b l : forall i,
  List.length (Track.mapi_from (Track.distanceTo a b) i l) = List.length l.
Proof.
  induction l as [|s l IH]; intros i; simpl; [reflexivity|].
  now rewrite IH.
Qed.



(** With two stations or more the sorted array starts with two entries
    of the array, of different index. *)
Lemma sorted_pair stations vehicle :
  (2 <= List.length stations)%nat ->
  exists c s tail,
    Js.sort Track.byDist (Track.distances stations vehicle) = c :: s :: tail
    /\ In c (Track.distances stations vehicle)
    /\ In s (Track.distances stations vehicle)
    /\ Track.Dist.idx c <> Track.Dist.idx s.
Proof.
  intros Hlen. set (ds := Track.distances stations vehicle).
  assert (Hperm : Permutation (Js.sort Track.byDist ds) ds) by apply sort_perm.
  assert (Hnd : NoDup (map Track.Dist.idx (Js.sort Track.byDist ds))).
  { apply Permutation_NoDup with (l := map Track.Dist.idx ds).
    - apply Permutation_map, Permutation_sym, Hperm.
    - unfold ds, Track.distances. rewrite distances_idx. apply seq_NoDup. }
  assert (Hds : (2 <= List.length (Js.sort Track.byDist ds))%nat).
  { rewrite sort_length. unfold ds, Track.distances.
    now rewrite distances_length. }
  destruct (Js.sort Track.byDist ds) as [|c [|s tail]]; simpl in Hds; try lia.
  exists c, s, tail. split; [reflexivity|]. repeat split.
  - apply (Permutation_in _ Hperm). now left.
  - apply (Permutation_in _ Hperm). right. now left.
  - intros Heq. cbn [map] in Hnd. inversion Hnd as [|? ? Hnotin _]; subst.
    apply Hnotin. left. now symmetry.
Qed.

(** Past the guard the call returns the clamped interpolation between the
    two entries at the head of the sorted array. *)
Lemma getTrainPosition_interpolates first rest vehicle c s tail :
  Track.truthy (Track.Vehicle.latitude vehicle) = true ->
  Track.truthy (Track.Vehicle.longitude vehicle) = true ->
  Track.truthy (Track.TrackStation.lat first) = true ->
  Js.sort Track.byDist (Track.distances (first :: rest) vehicle) = c :: s :: tail ->
  Track.getTrainPosition (first :: rest) vehicle
  = Track.Returns (Track.interpolate c s).
Proof.
  intros Hlat Hlng Hfirst E. unfold Track.getTrainPosition.
  now rewrite Hlat, Hlng, Hfirst, E.
Qed.

(** With two stations or more a call returns, and what it returns is in
    [1, 99] or is [NaN]. *)
Lemma position_in_range_or_NaN stations vehicle :
  (2 <= List.length stations)%nat ->
  Track.onTrackOrNaN (Track.getTrainPosition stations vehicle).
Proof.
  intros Hlen.
  destruct (Track.truthy (Track.Vehicle.latitude vehicle)) eqn:Hlat;
    [|exists 50; split; [now apply fallback_without_fix; left | now right]].
  destruct (Track.truthy (Track.Vehicle.longitude vehicle)) eqn:Hlng;
    [|exists 50; split; [now apply fallback_without_fix; right | now right]].
  destruct (sorted_pair stations vehicle Hlen) as (c & s & tail & E & _).
  destruct stations as [|first rest]; [simpl in Hlen; lia|].
  destruct (Track.truthy (Track.TrackStation.lat first)) eqn:Hfirst;
    [|exists 50; split; [now apply fallback_without_first_lat | now right]].
  rewrite (getTrainPosition_interpolates first rest vehicle c s tail) by assumption.
  exists (Track.interpolate c s). split; [reflexivity|]. apply clamp_cases.
Qed.

End TrackFacts.

(* ================================================================== *)
(** ** renderVisualTrack: the station tables of [stationConfigs]        *)
(* ================================================================== *)



(** The tables of the G line and of the B line carry no coordinates. *)
Lemma gline_unsurveyed : Track.unsurveyed (Track.stationsOf "113G").
Proof. repeat constructor. Qed.

Lemma bline_unsurveyed : Track.unsurveyed (Track.stationsOf "113B").
Proof. repeat constructor. Qed.

(** A train between 48th and 112th is drawn between their positions 25
    and 70. *)
Example fix_between_48th_and_112th :
  exists r : float,
    Track.getTrainPosition (Track.stationsOf "117N")
      (Examples.fix_at (Some 39.85%float) (Some (-104.98)%float))
    = Track.Returns r
    /\ (25 <=? r)%float = true /\ (r <=? 70)%float = true.
Proof. eexists. split; [vm_compute; reflexivity|]. split; reflexivity. Qed.




(** C10.  The fallback for absent station coordinates looks at the first
    station only: whenever its latitude is absent the mapping returns 50,
    whatever the fix and whatever the later stations carry.  The station
    tables of the G line and of the B line carry no coordinates, so every
    vehicle of these lines is drawn at 50. *)
Theorem first_station_latitude_decides_fallback :
  forall (vehicle : Track.Vehicle.t),
    (forall (first : Track.TrackStation.t) (rest : list Track.TrackStation.t),
       Track.truthy (Track.TrackStation.lat first) = false ->
       Track.getTrainPosition (first :: rest) vehicle = Track.Returns 50%float)
    /\ Track.getTrainPosition (Track.stationsOf "113G") vehicle
       = Track.Returns 50%float
    /\ Track.getTrainPosition (Track.stationsOf "113B") vehicle
       = Track.Returns 50%float.
Proof.
  intros vehicle. split; [|split].
  - intros first rest H. now apply fallback_without_first_lat.
  - now apply fallback_without_first_lat.
  - now apply fallback_without_first_lat.
Qed.

(** A fix with coordinates, a first station without latitude followed by a
    station with coordinates: the answer is still 50. *)
Lemma first_station_latitude_decides_fallback_witness :
  Track.getTrainPosition
    [ {| Track.TrackStation.id := "34781"; Track.TrackStation.name := "Union";
         Track.TrackStation.lat := None; Track.TrackStation.lng := None;
         Track.TrackStation.pos := 5%float |};
      Examples.stop_at 39.7809%float (-104.9693)%float 35%float ]
    (Examples.fix_at (Some 39.85%float) (Some (-104.98)%float))
  = Track.Returns 50%float.
Proof.
  apply (proj1 (first_station_latitude_decides_fallback
                  (Examples.fix_at (Some 39.85%float) (Some (-104.98)%float)))).
  reflexivity.
Defined.

(* ================================================================== *)
(** ** server.js: further facts about the G-line response               *)
(* ================================================================== *)

Section GlineFacts.
Variable fmt : Z -> string.
Variable stopId : string.

(** What every record pushed by the loop looks like. *)
Lemma visit_stopUpdate_shape (P : Server.Arrival.t -> Prop) trip acc su :
  (forall t,
      P {| Server.Arrival.route := Gtfs.routeId trip;
           Server.Arrival.routeId := Gtfs.routeId trip;
           Server.Arrival.tripId := Gtfs.tripId trip;
           Server.Arrival.directionId :=
             Server.directionId_or_0 (Gtfs.directionId trip);
           Server.Arrival.arrivalTime := Gtfs.Number t;
           Server.Arrival.scheduledArrivalTime := t;
           Server.Arrival.arrivalTimeFormatted := fmt (Gtfs.Number t);
           Server.Arrival.status := "Scheduled";
           Server.Arrival.stopId := stopId |}) ->
  Forall P acc -> Forall P (Server.visit_stopUpdate fmt stopId trip acc su).
Proof.
  intros Hnew Hacc. unfold Server.visit_stopUpdate, Js.push.
  destruct (String.eqb (Gtfs.stopId su) stopId); [|assumption].
  destruct (Gtfs.arrival su) as [a|]; [|assumption].
  destruct (Gtfs.truthy (Gtfs.time a)); [|assumption].
  destruct (Gtfs.time a) as [t|]; [|assumption].
  apply Forall_app. split; [assumption|]. constructor; [apply Hnew | constructor].
Qed.

Lemma parseArrivals_shape (P : Server.Arrival.t -> Prop) feed :
  (forall trip t,
      P {| Server.Arrival.route := Gtfs.routeId trip;
           Server.Arrival.routeId := Gtfs.routeId trip;
           Server.Arrival.tripId := Gtfs.tripId trip;
           Server.Arrival.directionId :=
             Server.directionId_or_0 (Gtfs.directionId trip);
           Server.Arrival.arrivalTime := Gtfs.Number t;
           Server.Arrival.scheduledArrivalTime := t;
           Server.Arrival.arrivalTimeFormatted := fmt (Gtfs.Number t);
           Server.Arrival.status := "Scheduled";
           Server.Arrival.stopId := stopId |}) ->
  Forall P (Server.parseArrivals fmt feed stopId).
Proof.
  intros Hnew. unfold Server.parseArrivals.
  assert (G : forall entities acc, Forall P acc ->
            Forall P (fold_left (Server.visit_entity fmt stopId) entities acc)).
  { induction entities as [|e entities IH]; intros acc Hacc; simpl; [assumption|].
    apply IH. unfold Server.visit_entity.
    destruct (Gtfs.tripUpdate e) as [tu|]; [|assumption].
    generalize (Server.stopTimeUpdates tu). intros sus. revert acc Hacc.
    induction sus as [|su sus IHs]; intros acc Hacc; simpl; [assumption|].
    apply IHs. apply visit_stopUpdate_shape; auto. }
  apply G. constructor.
Qed.
End GlineFacts.

(** X1.  The [arrivals] array of the G-line response is in non-decreasing
    order of arrival time, whatever the order of the feed. *)
Theorem gline_arrivals_sorted :
  forall (fmt : Z -> string) (feed : Gtfs.FeedMessage) (nowMs stampMs : Z)
         (stopId : string),
    StronglySorted
      (fun a b => Server.Arrival.arrivalTime a <= Server.Arrival.arrivalTime b)
      (Server.Result.arrivals (Server.gline fmt feed nowMs stampMs stopId)).
Proof.
  intros fmt feed nowMs stampMs stopId. unfold Server.gline; simpl.
  apply Sorted_StronglySorted.
  - intros a b c Hab Hbc. lia.
  - apply sort_Sorted with (dom := fun _ => True).
    + intros a b _ _ H. unfold Server.byArrivalTime in H.
      apply Z.ltb_ge in H. lia.
    + intros a b _ _ H. unfold Server.byArrivalTime in H.
      apply Z.ltb_lt in H. lia.
    + apply Forall_forall. trivial.
Qed.

(** X2.  Every arrival of the G-line response belongs to the requested
    stop, has status "Scheduled", repeats its route under [route] and
    [routeId], and carries as [arrivalTime] the number held by
    [scheduledArrivalTime], formatted in [arrivalTimeFormatted]. *)
Theorem gline_arrivals_well_formed :
  forall (fmt : Z -> string) (feed : Gtfs.FeedMessage) (nowMs stampMs : Z)
         (stopId : string),
    Forall (fun a =>
              Server.Arrival.stopId a = stopId
              /\ Server.Arrival.status a = "Scheduled"%string
              /\ Server.Arrival.route a = Server.Arrival.routeId a
              /\ Server.Arrival.arrivalTime a
                 = Gtfs.Number (Server.Arrival.scheduledArrivalTime a)
              /\ Server.Arrival.arrivalTimeFormatted a
                 = fmt (Server.Arrival.arrivalTime a))
           (Server.Result.arrivals (Server.gline fmt feed nowMs stampMs stopId)).
Proof.
  intros fmt feed nowMs stampMs stopId. unfold Server.gline; simpl.
  apply sort_Forall, parseArrivals_shape.
  intros trip t. simpl. repeat split.
Qed.

(** X3.  A stop at which no stop-time update of the feed calls is answered
    with an empty [arrivals] array, still under its own identifier. *)
Theorem gline_unserved_stop_empty :
  forall (fmt : Z -> string) (feed : Gtfs.FeedMessage) (nowMs stampMs : Z)
         (stopId : string),
    Forall (fun su => Gtfs.stopId su <> stopId) (Server.all_stopUpdates feed) ->
    Server.Result.arrivals (Server.gline fmt feed nowMs stampMs stopId) = []
    /\ Server.Result.stopId (Server.gline fmt feed nowMs stampMs stopId) = stopId.
Proof.
  intros fmt feed nowMs stampMs stopId H. split; [|reflexivity].
  unfold Server.gline; simpl.
  assert (E : Server.parseArrivals fmt feed stopId = []).
  { apply map_eq_nil with (f := Server.Arrival.arrivalTime).
    rewrite parseArrivals_pushed.
    induction (Server.all_stopUpdates feed) as [|su sus IH]; [reflexivity|].
    inversion H as [|? ? Hsu Hsus]; subst. simpl.
    rewrite (IH Hsus), app_nil_r. unfold Server.pushed.
    destruct (String.eqb_spec (Gtfs.stopId su) stopId); [contradiction|reflexivity]. }
  now rewrite E.
Qed.

(** Stop 34510 is not in the feed of the example. *)
Lemma gline_unserved_stop_empty_witness :
  Server.Result.arrivals
    (Server.gline (fun _ => EmptyString) Examples.union_feed 1000000 1000007 "34510") = []
  /\ Server.Result.stopId
       (Server.gline (fun _ => EmptyString) Examples.union_feed 1000000 1000007 "34510")
     = "34510"%string.
Proof.
  apply (gline_unserved_stop_empty
           (fun _ => EmptyString) Examples.union_feed 1000000 1000007 "34510").
  repeat constructor; discriminate.
Defined.



(* ================================================================== *)
(** ** api.js: further facts about station and line arrivals            *)
(* ================================================================== *)

Section MoreListFacts.
Context {A : Type}.

Lemma StronglySorted_app_cross (R : A -> A -> Prop) (l1 l2 : list A) :
  StronglySorted R (l1 ++ l2) -> Forall (fun a => Forall (R a) l2) l1.
Proof.
  induction l1 as [|x l1 IH]; simpl; intros H; [constructor|].
  inversion H as [|? ? Hs Hx]; subst.
  constructor; [|now apply IH].
  apply Forall_app in Hx. tauto.
Qed.

Lemma StronglySorted_weaken (R R' : A -> A -> Prop) (l : list A) :
  (forall a b, In a l -> In b l -> R a b -> R' a b) ->
  StronglySorted R l -> StronglySorted R' l.
Proof.
  intros Himp Hs. induction Hs as [|x l Hs IH Hx]; [constructor|].
  constructor.
  - apply IH. intros a b Ha Hb. apply Himp; now right.
  - rewrite Forall_forall in *. intros y Hy.
    apply Himp; [now left | now right | now apply Hx].
Qed.
End MoreListFacts.

Lemma Math_round_div_monotone (n n' d : Z) :
  0 < d -> n <= n' -> Js.Math_round_div n d <= Js.Math_round_div n' d.
Proof.
  intros Hd Hn. unfold Js.Math_round_div.
  apply Z.div_le_mono; lia.
Qed.

(** The fetch-and-sort of one stop, again for any caller: the arrival list
    is chronological once every entry carries a time. *)
Lemma line_arrivals_directions env stopId routeId d :
  Forall (fun a => Api.Arrival.directionId a = Some d
                   /\ In a (Api.StationArrivals.arrivals
                              (Api.getStationArrivals env stopId routeId)))
         (Js.slice0 3 (filter (Api.hasDirection d)
                              (Api.StationArrivals.arrivals
                                 (Api.getStationArrivals env stopId routeId)))).
Proof.
  apply Forall_forall. intros a Ha.
  apply In_firstn, filter_In in Ha. destruct Ha as [Hin Hd]. split; [|assumption].
  unfold Api.hasDirection in Hd.
  destruct (Api.Arrival.directionId a) as [x|]; [|discriminate].
  apply Z.eqb_eq in Hd. now subst.
Qed.

(** X5.  [getLineArrivals] splits the arrivals of a stop by direction: every
    northbound entry has direction 0, every southbound entry direction 1,
    both are taken from the arrival list of the same fetch, and that list is
    kept whole beside them; an arrival with any other direction is in
    neither list. *)
Theorem line_arrivals_split_by_direction :
  forall (env : Api.Env) (stopId routeId : string),
    let l := Api.getLineArrivals env stopId routeId in
    Api.LineArrivals.data l = Api.getStationArrivals env stopId routeId
    /\ Forall (fun a => Api.Arrival.directionId a = Some 0
                        /\ In a (Api.StationArrivals.arrivals (Api.LineArrivals.data l)))
              (Api.LineArrivals.northbound l)
    /\ Forall (fun a => Api.Arrival.directionId a = Some 1
                        /\ In a (Api.StationArrivals.arrivals (Api.LineArrivals.data l)))
              (Api.LineArrivals.southbound l).
Proof.
  intros env stopId routeId l. subst l. open_lineArrivals.
  split; [reflexivity|split]; apply line_arrivals_directions.
Qed.

(** X6.  The cap of three keeps the earliest trains: every northbound
    (southbound) arrival kept by [getLineArrivals] is not later than any
    northbound (southbound) arrival of the stop that the cap cuts off,
    provided every arrival carries an epoch time. *)
Theorem line_arrivals_cap_keeps_earliest :
  forall (env : Api.Env) (stopId routeId : string),
    Forall (fun a => Api.Arrival.time a <> None)
           (Api.StationArrivals.arrivals (Api.getStationArrivals env stopId routeId)) ->
    let l := Api.getLineArrivals env stopId routeId in
    let arrivals := Api.StationArrivals.arrivals (Api.LineArrivals.data l) in
    Forall (fun a => Forall (Api.chronological a)
                            (skipn 3 (filter (Api.hasDirection 0) arrivals)))
           (Api.LineArrivals.northbound l)
    /\ Forall (fun a => Forall (Api.chronological a)
                               (skipn 3 (filter (Api.hasDirection 1) arrivals)))
              (Api.LineArrivals.southbound l).
Proof.
  intros env stopId routeId H l arrivals. subst l arrivals. open_lineArrivals.
  apply station_arrivals_sorted in H.
  split; apply StronglySorted_app_cross; rewrite firstn_skipn;
    now apply StronglySorted_filter.
Qed.

(** Five northbound trains reported out of order: the three kept are not
    later than the two cut off. *)
Lemma line_arrivals_cap_keeps_earliest_witness :
  Forall (fun a => Forall (Api.chronological a)
            (skipn 3 (filter (Api.hasDirection 0)
                        (Api.StationArrivals.arrivals
                           (Api.LineArrivals.data
                              (Api.getLineArrivals Examples.crowded_env "35255" "117N"))))))
         (Api.LineArrivals.northbound
            (Api.getLineArrivals Examples.crowded_env "35255" "117N")).
Proof.
  apply (line_arrivals_cap_keeps_earliest Examples.crowded_env "35255" "117N").
  vm_compute. repeat constructor; discriminate.
Defined.

(** Shifting the dividend by whole multiples of the divisor shifts the
    rounded quotient by as many units. *)
Lemma Math_round_div_shift (n d k : Z) :
  0 < d -> Js.Math_round_div (n + d * k) d = Js.Math_round_div n d + k.
Proof.
  intros Hd. unfold Js.Math_round_div.
  replace (2 * (n + d * k) + d) with (2 * n + d + k * (2 * d)) by lia.
  apply Z.div_add. lia.
Qed.

(** The callback reads the clock for every entry: two trains due at the
    same second come out with countdowns 2 and 1 when the clock ticks
    between them. *)
Example countdowns_decrease_across_a_tick :
  map Api.Arrival.minutesAway
      (Api.normalizeArrivals Examples.ticking "117N"
         (Some [Examples.entry 0 (Some 1090) None;
                Examples.entry 0 (Some 1090) None]))
  = [Some 2; Some 1].
Proof. reflexivity. Qed.

(** X7.  When every entry of the feed reports a non-zero arrival time, the
    countdowns of the normalised list are numbers, and as long as the clock
    readings taken while the entries are mapped span at most [k] minutes, no
    countdown exceeds a later one of the list by more than [k] minutes.
    Under a clock that does not move during the map ([k = 0]) the order by
    time is also the order by minutes away. *)
Theorem normalized_countdowns_follow_times :
  forall (clock : Api.Clock) (lo k : Z) (routeId : string)
         (entries : list Upstream.ArrivalEntry.t),
    Api.ticks_within (List.length (filter (Api.matches routeId) entries))
                     lo (lo + 60000 * k) clock ->
    Forall (fun e => exists t, Upstream.ArrivalEntry.arrivalTime e = Some t /\ t <> 0)
           entries ->
    StronglySorted (Api.countdown_within k)
                   (Api.normalizeArrivals clock routeId (Some entries)).
Proof.
  intros clock lo k routeId entries Hclock H. unfold Api.normalizeArrivals.
  set (l := Api.mapNormalize clock 0 (filter (Api.matches routeId) entries)).
  assert (Hl : Forall (fun a => exists t nowMs,
                         lo <= nowMs <= lo + 60000 * k
                         /\ Api.Arrival.time a = Some t
                         /\ Api.Arrival.minutesAway a
                            = Some (Js.Math_round_div (1000 * t - nowMs) 60000)) l).
  { apply Forall_forall. intros a Ha. unfold l in Ha.
    apply mapNormalize_In in Ha. destruct Ha as (e & j & He & Hj & ->).
    apply filter_In in He. destruct He as [He _].
    rewrite Forall_forall in H. destruct (H e He) as (t & Ht & Hnz).
    exists t, (clock j). split; [apply Hclock; lia|].
    now apply normalize_with_arrivalTime. }
  apply StronglySorted_weaken with (R := Api.chronological).
  - intros a b Ha Hb. apply sort_In in Ha, Hb.
    rewrite Forall_forall in Hl.
    destruct (Hl a Ha) as (ta & na & Hna & Hta & Hma).
    destruct (Hl b Hb) as (tb & nb & Hnb & Htb & Hmb).
    unfold Api.chronological, Api.countdown_within.
    rewrite Hta, Htb, Hma, Hmb. intros Hle.
    rewrite <- Math_round_div_shift by lia.
    apply Math_round_div_monotone; lia.
  - apply sort_byTime_chronological.
    apply Forall_forall. intros a Ha.
    rewrite Forall_forall in Hl. destruct (Hl a Ha) as (t & n & _ & Ht & _).
    congruence.
Qed.

(** Three entries out of order, mapped while the clock ticks: the
    countdowns come out as 2, 10, 15 and do not decrease. *)
Lemma normalized_countdowns_follow_times_witness :
  StronglySorted (Api.countdown_within 1)
    (Api.normalizeArrivals Examples.ticking "117N"
       (Some [Examples.entry 0 (Some 1600) None;
              Examples.entry 1 (Some 1900) None;
              Examples.entry 0 (Some 1120) None])).
Proof.
  apply (normalized_countdowns_follow_times Examples.ticking 1000000 1 "117N").
  - intros i Hi. simpl in Hi. unfold Examples.ticking. lia.
  - repeat constructor; eexists; (split; [reflexivity | discriminate]).
Defined.

(* ================================================================== *)
(** ** api.js: drive times and weather                                  *)
(* ================================================================== *)



Lemma Math_round_nearest (q : Q) :
  (inject_Z (Js.Math_round q) - (1 # 2) <= q
   /\ q < inject_Z (Js.Math_round q) + (1 # 2))%Q.
Proof.
  unfold Js.Math_round.
  pose proof (Qfloor_le (q + (1 # 2))) as H1.
  pose proof (Qlt_floor (q + (1 # 2))) as H2.
  rewrite inject_Z_plus in H2. change (inject_Z 1) with 1%Q in H2.
  split; Lqa.lra.
Qed.

(** X9.  [getWeather] reports the fallback weather exactly when the call
    throws or the answer lacks [main], a first [weather] entry or [wind],
    and then the whole fixed fallback record; on a complete answer the
    temperature shown is the reported one to the nearest degree. *)
Theorem getWeather_fallback_exactly_on_failure :
  forall (Coord : Type)
         (fetchWeather : option Coord -> option Coord
                         -> Api.Fetched Upstream.WeatherData.t)
         (lat lon : option Coord),
    let w := Api.getWeather Coord fetchWeather lat lon in
    Api.Weather._isFallback w
    = match fetchWeather lat lon with
      | Api.Ok data =>
          match Upstream.WeatherData.main data,
                Upstream.WeatherData.weather data,
                Upstream.WeatherData.wind data with
          | Some _, Some (_ :: _), Some _ => false
          | _, _, _ => true
          end
      | Api.Threw => true
      end
    /\ (Api.Weather._isFallback w = true -> w = Api.getFallbackWeather)
    /\ (forall data main q,
          fetchWeather lat lon = Api.Ok data ->
          Api.Weather._isFallback w = false ->
          Upstream.WeatherData.main data = Some main ->
          Upstream.WeatherMain.temp main = Some q ->
          exists z, Api.Weather.temp w = Some z
                    /\ (inject_Z z - (1 # 2) <= q /\ q < inject_Z z + (1 # 2))%Q).
Proof.
  intros Coord fetchWeather lat lon w. subst w. unfold Api.getWeather.
  destruct (fetchWeather lat lon) as [data|];
    [|repeat split; try reflexivity; intros ? ? ? H; discriminate H].
  unfold Api.weatherOf.
  destruct (Upstream.WeatherData.main data) as [m|] eqn:Em;
    [|repeat split; try reflexivity; intros ? ? ? _ Hf; discriminate Hf].
  destruct (Upstream.WeatherData.weather data) as [[|c cs]|];
    [repeat split; try reflexivity; intros ? ? ? _ Hf; discriminate Hf | |
     repeat split; try reflexivity; intros ? ? ? _ Hf; discriminate Hf].
  destruct (Upstream.WeatherData.wind data) as [wd|];
    [|repeat split; try reflexivity; intros ? ? ? _ Hf; discriminate Hf].
  split; [reflexivity|]. split; [discriminate|].
  intros data' main q Hd _ Hm Hq. injection Hd as <-.
  rewrite Em in Hm. injection Hm as <-.
  cbn [Api.Weather.temp]. rewrite Hq. cbn [option_map].
  eexists. split; [reflexivity | apply Math_round_nearest].
Qed.

(** A reported 71.6 degrees is shown as an integer within half a degree. *)
Lemma getWeather_fallback_exactly_on_failure_witness :
  exists z,
    Api.Weather.temp (Api.getWeather Z Examples.weather_up (Some 39) (Some (-105)))
    = Some z
    /\ (inject_Z z - (1 # 2) <= 716 # 10 /\ 716 # 10 < inject_Z z + (1 # 2))%Q.
Proof.
  apply (proj2 (proj2 (getWeather_fallback_exactly_on_failure
                         Z Examples.weather_up (Some 39) (Some (-105))))
           Examples.mild_weather Examples.mild_main (716 # 10));
    reflexivity.
Defined.

(* ================================================================== *)
(** ** app.js: boards under failing feeds                               *)
(* ================================================================== *)

Section DeadPlatformFacts.
Variable env : Api.Env.
Variable lineId : string.

(** A platform whose fetch throws reports no train in either direction. *)
Lemma dead_platform_northbound p :
  Api.fetch env (Api.endpoint p lineId) = Api.Threw ->
  Api.LineArrivals.northbound (Api.getLineArrivals env p lineId) = [].
Proof.
  intros H. unfold Api.getLineArrivals, Api.getStationArrivals. now rewrite H.
Qed.

Lemma dead_platform_southbound p :
  Api.fetch env (Api.endpoint p lineId) = Api.Threw ->
  Api.LineArrivals.southbound (Api.getLineArrivals env p lineId) = [].
Proof.
  intros H. unfold Api.getLineArrivals, Api.getStationArrivals. now rewrite H.
Qed.

Lemma flat_map_skip_empty {A B : Type} (keep : A -> bool) (f : A -> list B) l :
  (forall x, keep x = false -> f x = []) ->
  flat_map f (filter keep l) = flat_map f l.
Proof.
  intros H. induction l as [|x l IH]; simpl; [reflexivity|].
  destruct (keep x) eqn:E; simpl; rewrite IH; [reflexivity|].
  now rewrite (H x E).
Qed.
Lemma flat_map_all_empty {A B : Type} (f : A -> list B) l :
  (forall x, f x = []) -> flat_map f l = [].
Proof.
  intros H. induction l as [|x l IH]; simpl; [reflexivity|].
  now rewrite H, IH.
Qed.
End DeadPlatformFacts.

(** X10.  In the merge of an N-line station, a platform whose fetch fails
    contributes nothing and takes nothing away: each merged direction is a
    rearrangement of what the platforms that answered report for it. *)
Theorem merge_skips_failed_platforms :
  forall (env : Api.Env) (lineId : string) (station : App.Station.t)
         (pc : App.PlatformConfig.t),
    let answered :=
      filter (fun p => match Api.fetch env (Api.endpoint p lineId) with
                       | Api.Ok _ => true
                       | Api.Threw => false
                       end)
             (App.PlatformConfig.platforms pc) in
    Permutation
      (App.StationBoard.northbound (App.mergePlatforms env lineId station pc))
      (if App.includes (App.PlatformConfig.directions pc) "northbound"
       then flat_map (fun p => Api.LineArrivals.northbound
                                 (Api.getLineArrivals env p lineId)) answered
       else [])
    /\ Permutation
      (App.StationBoard.southbound (App.mergePlatforms env lineId station pc))
      (if App.includes (App.PlatformConfig.directions pc) "southbound"
       then flat_map (fun p => Api.LineArrivals.southbound
                                 (Api.getLineArrivals env p lineId)) answered
       else []).
Proof.
  intros env lineId station pc answered. subst answered.
  rewrite mergePlatforms_northbound, mergePlatforms_southbound.
  split.
  - destruct (App.includes _ "northbound"); [|constructor].
    rewrite flat_map_skip_empty; [apply sort_perm|].
    intros p Hp. apply dead_platform_northbound.
    now destruct (Api.fetch env (Api.endpoint p lineId)).
  - destruct (App.includes _ "southbound"); [|constructor].
    rewrite flat_map_skip_empty; [apply sort_perm|].
    intros p Hp. apply dead_platform_southbound.
    now destruct (Api.fetch env (Api.endpoint p lineId)).
Qed.

(** X11.  When every transit endpoint fails, [fetchTransitData] still
    installs a board for each station of each line, and every board is
    empty in both directions. *)
Theorem fetchTransitData_all_feeds_down :
  forall (env : Api.Env) (cfg : App.Config.t),
    (forall endpoint, Api.fetch env endpoint = Api.Threw) ->
    map fst (App.fetchTransitData env cfg) = ["117N"; "113G"; "113B"]%string
    /\ Forall (fun line =>
                 map fst (snd line)
                 = map App.Station.id
                       (match App.lookup (fst line) (App.Config.stations cfg) with
                        | Some l => l
                        | None => []
                        end)
                 /\ Forall (fun entry =>
                              App.StationBoard.northbound (snd entry) = []
                              /\ App.StationBoard.southbound (snd entry) = [])
                           (snd line))
              (App.fetchTransitData env cfg).
Proof.
  intros env cfg Hdown.
  assert (Hst : forall lineId station,
             App.StationBoard.northbound (App.fetchStation env cfg lineId station) = []
             /\ App.StationBoard.southbound (App.fetchStation env cfg lineId station) = []).
  { intros lineId station. unfold App.fetchStation.
    assert (Std : App.StationBoard.northbound (App.standardFetch env lineId station) = []
                  /\ App.StationBoard.southbound (App.standardFetch env lineId station) = []).
    { unfold App.standardFetch.
      cbn [App.StationBoard.northbound App.StationBoard.southbound].
      split; [apply dead_platform_northbound | apply dead_platform_southbound];
        apply Hdown. }
    destruct (String.eqb lineId "117N"); [|exact Std].
    destruct (App.lookup (App.Station.id station) (App.Config.nLinePlatforms cfg))
      as [pc|]; [|exact Std].
    rewrite mergePlatforms_northbound, mergePlatforms_southbound.
    assert (Enb : flat_map (fun p => Api.LineArrivals.northbound
                                       (Api.getLineArrivals env p lineId))
                           (App.PlatformConfig.platforms pc) = []).
    { apply flat_map_all_empty. intros p. apply dead_platform_northbound, Hdown. }
    assert (Esb : flat_map (fun p => Api.LineArrivals.southbound
                                       (Api.getLineArrivals env p lineId))
                           (App.PlatformConfig.platforms pc) = []).
    { apply flat_map_all_empty. intros p. apply dead_platform_southbound, Hdown. }
    rewrite Enb, Esb.
    split; [now destruct (App.includes _ "northbound")
           | now destruct (App.includes _ "southbound")]. }
  split; [reflexivity|].
  unfold App.fetchTransitData. apply Forall_forall. intros line Hline.
  apply in_map_iff in Hline. destruct Hline as (lineId & <- & _).
  cbn [fst snd]. unfold App.fetchLine. split.
  - rewrite map_map. reflexivity.
  - apply Forall_forall. intros entry Hentry.
    apply in_map_iff in Hentry. destruct Hentry as (station & <- & _).
    apply Hst.
Qed.

(** With every endpoint down the shipped configuration yields twelve empty
    boards. *)
Lemma fetchTransitData_all_feeds_down_witness :
  Forall (fun line =>
            Forall (fun entry =>
                      App.StationBoard.northbound (snd entry) = []
                      /\ App.StationBoard.southbound (snd entry) = [])
                   (snd line))
         (App.fetchTransitData Examples.dead_env App.config).
Proof.
  assert (H := proj2 (fetchTransitData_all_feeds_down
                        Examples.dead_env App.config (fun _ => eq_refl))).
  apply Forall_forall. intros line Hline.
  rewrite Forall_forall in H. exact (proj2 (H line Hline)).
Defined.

(* ================================================================== *)
(** ** app.js: what the station panels show                             *)
(* ================================================================== *)

(** Boards are chronological in both directions (for any caller). *)
Lemma fetchStation_chronological env cfg lineId station :
  (forall p, In p (App.platformsOf cfg lineId station) ->
     Forall (fun a => Api.Arrival.time a <> None)
            (Api.StationArrivals.arrivals (Api.getStationArrivals env p lineId))) ->
  StronglySorted Api.chronological
    (App.StationBoard.northbound (App.fetchStation env cfg lineId station))
  /\ StronglySorted Api.chronological
    (App.StationBoard.southbound (App.fetchStation env cfg lineId station)).
Proof.
  unfold App.platformsOf, App.fetchStation.
  assert (Std : (forall p, In p [App.Station.id station] ->
             Forall (fun a => Api.Arrival.time a <> None)
               (Api.StationArrivals.arrivals (Api.getStationArrivals env p lineId))) ->
          StronglySorted Api.chronological
            (App.StationBoard.northbound (App.standardFetch env lineId station))
          /\ StronglySorted Api.chronological
            (App.StationBoard.southbound (App.standardFetch env lineId station))).
  { intros H. specialize (H _ (or_introl eq_refl)).
    apply station_arrivals_sorted in H.
    unfold App.standardFetch.
    cbn [App.StationBoard.northbound App.StationBoard.southbound].
    open_lineArrivals.
    split; now apply StronglySorted_firstn, StronglySorted_filter. }
  destruct (String.eqb lineId "117N"); [|exact Std].
  destruct (App.lookup (App.Station.id station) (App.Config.nLinePlatforms cfg))
    as [pc|]; [|exact Std].
  intros H. rewrite mergePlatforms_northbound, mergePlatforms_southbound.
  split.
  - destruct (App.includes _ "northbound"); [|constructor].
    apply sort_byTime_chronological, Forall_flat_map.
    intros p Hp. now apply northbound_timed, H.
  - destruct (App.includes _ "southbound"); [|constructor].
    apply sort_byTime_chronological, Forall_flat_map.
    intros p Hp. now apply southbound_timed, H.
Qed.

Lemma nextOf_earliest l :
  StronglySorted Api.chronological l ->
  Forall (fun a => Api.Arrival.time a <> None) l ->
  match App.nextOf l with
  | Some next => Forall (Api.chronological next) l
  | None => l = []
  end.
Proof.
  intros Hs Ht. destruct l as [|a l]; simpl; [reflexivity|].
  inversion Hs; subst. inversion Ht as [|? ? Ha _]; subst.
  constructor; [|assumption].
  unfold Api.chronological. destruct (Api.Arrival.time a); [lia|congruence].
Qed.

Lemma fetchStation_timed env cfg lineId station :
  (forall p, In p (App.platformsOf cfg lineId station) ->
     Forall (fun a => Api.Arrival.time a <> None)
            (Api.StationArrivals.arrivals (Api.getStationArrivals env p lineId))) ->
  Forall (fun a => Api.Arrival.time a <> None)
         (App.StationBoard.northbound (App.fetchStation env cfg lineId station))
  /\ Forall (fun a => Api.Arrival.time a <> None)
         (App.StationBoard.southbound (App.fetchStation env cfg lineId station)).
Proof.
  unfold App.platformsOf, App.fetchStation.
  assert (Std : (forall p, In p [App.Station.id station] ->
             Forall (fun a => Api.Arrival.time a <> None)
               (Api.StationArrivals.arrivals (Api.getStationArrivals env p lineId))) ->
          Forall (fun a => Api.Arrival.time a <> None)
            (App.StationBoard.northbound (App.standardFetch env lineId station))
          /\ Forall (fun a => Api.Arrival.time a <> None)
            (App.StationBoard.southbound (App.standardFetch env lineId station))).
  { intros H. specialize (H _ (or_introl eq_refl)).
    unfold App.standardFetch.
    cbn [App.StationBoard.northbound App.StationBoard.southbound].
    split; [now apply northbound_timed | now apply southbound_timed]. }
  destruct (String.eqb lineId "117N"); [|exact Std].
  destruct (App.lookup (App.Station.id station) (App.Config.nLinePlatforms cfg))
    as [pc|]; [|exact Std].
  intros H. rewrite mergePlatforms_northbound, mergePlatforms_southbound.
  split.
  - destruct (App.includes _ "northbound"); [|constructor].
    apply sort_Forall, Forall_flat_map.
    intros p Hp. now apply northbound_timed, H.
  - destruct (App.includes _ "southbound"); [|constructor].
    apply sort_Forall, Forall_flat_map.
    intros p Hp. now apply southbound_timed, H.
Qed.

(** X12.  The train a station board offers as next in a direction (its first
    entry, shown in the "Next NB" and "Next SB" cells) is not later than any
    train the board holds for that direction, and a direction without a
    next train holds no train at all; this needs every reported arrival to
    carry an epoch time. *)
Theorem next_train_is_earliest_of_direction :
  forall (env : Api.Env) (cfg : App.Config.t) (lineId : string)
         (station : App.Station.t),
    (forall p, In p (App.platformsOf cfg lineId station) ->
       Forall (fun a => Api.Arrival.time a <> None)
              (Api.StationArrivals.arrivals (Api.getStationArrivals env p lineId))) ->
    let board := App.fetchStation env cfg lineId station in
    match App.nextOf (App.StationBoard.northbound board) with
    | Some next => Forall (Api.chronological next) (App.StationBoard.northbound board)
    | None => App.StationBoard.northbound board = []
    end
    /\ match App.nextOf (App.StationBoard.southbound board) with
       | Some next => Forall (Api.chronological next) (App.StationBoard.southbound board)
       | None => App.StationBoard.southbound board = []
       end.
Proof.
  intros env cfg lineId station H board. subst board.
  destruct (fetchStation_chronological env cfg lineId station H) as [Hn Hs].
  destruct (fetchStation_timed env cfg lineId station H) as [Tn Ts].
  split; now apply nextOf_earliest.
Qed.

(** The merged board of 112th / Northglenn: the next northbound train is the
    one of 1120, reported second by the second platform. *)
Lemma next_train_is_earliest_of_direction_witness :
  match App.nextOf (App.StationBoard.northbound
                      (App.fetchStation Examples.busy_env App.config "117N"
                                        Examples.northglenn)) with
  | Some next =>
      Forall (Api.chronological next)
             (App.StationBoard.northbound
                (App.fetchStation Examples.busy_env App.config "117N"
                                  Examples.northglenn))
  | None =>
      App.StationBoard.northbound
        (App.fetchStation Examples.busy_env App.config "117N" Examples.northglenn)
      = []
  end
  /\ match App.nextOf (App.StationBoard.southbound
                         (App.fetchStation Examples.busy_env App.config "117N"
                                           Examples.northglenn)) with
     | Some next =>
         Forall (Api.chronological next)
                (App.StationBoard.southbound
                   (App.fetchStation Examples.busy_env App.config "117N"
                                     Examples.northglenn))
     | None =>
         App.StationBoard.southbound
           (App.fetchStation Examples.busy_env App.config "117N" Examples.northglenn)
         = []
     end.
Proof.
  apply (next_train_is_earliest_of_direction
           Examples.busy_env App.config "117N" Examples.northglenn).
  intros p Hp. simpl in Hp.
  destruct Hp as [<-|[<-|[]]]; vm_compute; repeat constructor; discriminate.
Defined.

Lemma lookup_keyed {A B : Type} (key : A -> string) (f : A -> B) (l : list A) x :
  NoDup (map key l) -> In x l ->
  App.lookup (key x) (map (fun y => (key y, f y)) l) = Some (f x).
Proof.
  induction l as [|y l IH]; simpl; intros Hnd Hin; [contradiction|].
  inversion Hnd as [|? ? Hnotin Hnd']; subst.
  destruct Hin as [->|Hin].
  - now rewrite String.eqb_refl.
  - destruct (String.eqb_spec (key y) (key x)) as [E|_].
    + exfalso. apply Hnotin. rewrite E. now apply in_map.
    + now apply IH.
Qed.

(** X13.  When the stations of a line have distinct identifiers, the quick
    view over the freshly fetched line data has one row per configured
    station, in configuration order, and each row shows the next trains of
    that station's own board. *)
Theorem quickView_shows_each_station_board :
  forall (env : Api.Env) (cfg : App.Config.t) (lineId : string)
         (stations : list App.Station.t),
    App.lookup lineId (App.Config.stations cfg) = Some stations ->
    NoDup (map App.Station.id stations) ->
    App.quickView cfg lineId (App.fetchLine env cfg lineId)
    = map (fun station =>
             (App.Station.name station,
              App.nextCell (App.StationBoard.northbound
                              (App.fetchStation env cfg lineId station)),
              App.nextCell (App.StationBoard.southbound
                              (App.fetchStation env cfg lineId station))))
          stations.
Proof.
  intros env cfg lineId stations Hcfg Hnd.
  unfold App.quickView, App.fetchLine. rewrite Hcfg.
  apply map_ext_in. intros station Hin.
  now rewrite (lookup_keyed App.Station.id
                 (App.fetchStation env cfg lineId) stations station Hnd Hin).
Qed.

(** The four N-line stations of the shipped configuration. *)
Lemma quickView_shows_each_station_board_witness :
  List.length (App.quickView App.config "117N"
                 (App.fetchLine Examples.busy_env App.config "117N")) = 4%nat.
Proof.
  rewrite (quickView_shows_each_station_board
             Examples.busy_env App.config "117N" _ eq_refl).
  - reflexivity.
  - repeat constructor; simpl; intuition discriminate.
Defined.

(** X14.  A direction column of the "Your Station" panel shows at most two
    rows, for the first two arrivals of the list in order; the minutes
    shown are never negative, and "Now" replaces them exactly when the
    stored countdown is zero or less. *)
Theorem directionRows_show_first_two_clamped :
  forall arrivals : list Api.Arrival.t,
    (List.length (App.directionRows arrivals) <= 2)%nat
    /\ map App.TrainRow.time (App.directionRows arrivals)
       = map Api.Arrival.time (firstn 2 arrivals)
    /\ Forall (fun row => match App.TrainRow.minutes row with
                          | Some m => 0 <= m
                          | None => True
                          end)
              (App.directionRows arrivals)
    /\ map App.TrainRow.showsNow (App.directionRows arrivals)
       = map (fun a => match Api.Arrival.minutesAway a with
                       | Some m => m <=? 0
                       | None => false
                       end)
             (firstn 2 arrivals).
Proof.
  intros arrivals. unfold App.directionRows, Js.slice0.
  split; [|split; [|split]].
  - rewrite length_map. apply firstn_le_length.
  - rewrite map_map. reflexivity.
  - apply Forall_forall. intros row Hrow.
    apply in_map_iff in Hrow. destruct Hrow as (a & <- & _).
    unfold App.trainRow, App.displayMinutes; cbn [App.TrainRow.minutes].
    destruct (Api.Arrival.minutesAway a); simpl; [lia|trivial].
  - rewrite map_map. apply map_ext. intros a.
    unfold App.trainRow, App.displayMinutes, App.js_lt; cbn [App.TrainRow.showsNow].
    destruct (Api.Arrival.minutesAway a) as [m|]; simpl; [|reflexivity].
    destruct (Z.ltb_spec (Z.max 0 m) 1), (Z.leb_spec m 0); trivial; lia.
Qed.

(** X15.  Status label, countdown style and "Now" never disagree on a row:
    a row is "Arriving" and imminent (with or without "Now"), "Approaching"
    and soon, "Approaching" without style (at exactly five minutes), or
    "Scheduled" without style; "Now" appears only on "Arriving" rows. *)
Theorem trainRow_labels_consistent :
  forall train : Api.Arrival.t,
    let row := App.trainRow train in
    (App.TrainRow.status row = "Arriving"%string
     /\ App.TrainRow.countdown row = "imminent"%string)
    \/ (App.TrainRow.status row = "Approaching"%string
        /\ App.TrainRow.countdown row = "soon"%string
        /\ App.TrainRow.showsNow row = false)
    \/ (App.TrainRow.status row = "Approaching"%string
        /\ App.TrainRow.countdown row = EmptyString
        /\ App.TrainRow.showsNow row = false
        /\ Api.Arrival.minutesAway train = Some 5)
    \/ (App.TrainRow.status row = "Scheduled"%string
        /\ App.TrainRow.countdown row = EmptyString
        /\ App.TrainRow.showsNow row = false).
Proof.
  intros train row. subst row.
  unfold App.trainRow, App.trainStatus, App.countdownClass, App.displayMinutes,
         App.js_le, App.js_lt.
  cbn [App.TrainRow.status App.TrainRow.countdown App.TrainRow.showsNow].
  destruct (Api.Arrival.minutesAway train) as [m|]; simpl; [|tauto].
  destruct (Z.leb_spec (Z.max 0 m) 1).
  - left. destruct (Z.ltb_spec (Z.max 0 m) 2); [tauto|lia].
  - right. destruct (Z.ltb_spec (Z.max 0 m) 2); [lia|].
    destruct (Z.ltb_spec (Z.max 0 m) 1); [lia|].
    destruct (Z.leb_spec (Z.max 0 m) 5).
    + destruct (Z.ltb_spec (Z.max 0 m) 5); [tauto|].
      right. left. repeat split. f_equal. lia.
    + destruct (Z.ltb_spec (Z.max 0 m) 5); [lia|tauto].
Qed.

(* ================================================================== *)
(** ** app.js: preferences                                              *)
(* ================================================================== *)

Lemma lookup_assign {A : Type} (key other : string) (value : A) obj :
  App.lookup other (App.assign key value obj)
  = if String.eqb other key then Some value else App.lookup other obj.
Proof.
  induction obj as [|[k v] rest IH]; simpl.
  - rewrite (String.eqb_sym key other). reflexivity.
  - destruct (String.eqb_spec k key) as [->|Hk]; simpl.
    + rewrite (String.eqb_sym key other). now destruct (String.eqb other key).
    + rewrite IH. destruct (String.eqb_spec k other) as [->|_]; [|reflexivity].
      destruct (String.eqb_spec other key); [contradiction|reflexivity].
Qed.



(** X17.  A station choice survives a reload: after [changeStation] for a
    line, reading the stored preferences back gives that station for the
    line and the earlier selection for every other line; after
    [toggleTheme] the stored theme is the new one, "dark" or "light"; after
    [toggleAvoidHighways] the stored flag is the negated one. *)
Theorem choices_survive_reload :
  forall (s fresh : App.State.t) (lineId stationId other : string),
    App.lookup other
      (App.State.selectedStation
         (App.loadPreferences (snd (App.changeStation lineId stationId s)) fresh))
    = (if String.eqb other lineId then Some stationId
       else App.lookup other (App.State.selectedStation s))
    /\ App.State.theme (App.loadPreferences (snd (App.toggleTheme s)) fresh)
       = (if String.eqb (App.State.theme s) "dark" then "light" else "dark")%string
    /\ App.State.avoidHighways
         (App.loadPreferences (snd (App.toggleAvoidHighways s)) fresh)
       = negb (App.State.avoidHighways s).
Proof.
  intros s fresh lineId stationId other. split; [|split].
  - unfold App.changeStation, App.savePreferences, App.loadPreferences; simpl.
    apply lookup_assign.
  - unfold App.toggleTheme, App.savePreferences, App.loadPreferences; simpl.
    now destruct (String.eqb (App.State.theme s) "dark").
  - reflexivity.
Qed.
(* ================================================================== *)
(** ** The vehicle feed behind the markers                              *)
(* ================================================================== *)

(** On every line a track is drawn for, a call of [getTrainPosition]
    returns, and what it returns is in [1, 99] or is [NaN]; on the G and B
    lines it is 50. *)
Lemma configured_lines_return (vehicle : Track.Vehicle.t) :
  forall lineId, In lineId Track.lines ->
    Track.onTrackOrNaN (Track.getTrainPosition (Track.stationsOf lineId) vehicle)
    /\ (lineId <> "117N"%string ->
        Track.getTrainPosition (Track.stationsOf lineId) vehicle
        = Track.Returns 50%float).
Proof.
  intros lineId [<-|[<-|[<-|[]]]].
  - split; [|now intros H]. apply position_in_range_or_NaN. simpl. lia.
  - split; [apply position_in_range_or_NaN; simpl; lia|]. intros _.
    apply fallback_unsurveyed; [discriminate|apply gline_unsurveyed].
  - split; [apply position_in_range_or_NaN; simpl; lia|]. intros _.
    apply fallback_unsurveyed; [discriminate|apply bline_unsurveyed].
Qed.

(** X18.  Whatever the vehicle feed answers, drawing the track of one of
    the three lines never fails on a marker: every marker position is a
    number in [1, 99] or [NaN], and on the G and B lines every marker stands
    at 50; when the vehicle feed fails no track is drawn at all. *)
Theorem markers_on_track_or_NaN :
  forall (fetched : Api.Fetched Vehicles.Response.t) (nowMs : Z) (lineId : string),
    In lineId Track.lines ->
    match Vehicles.renderVisualTrack
            (Vehicles.getVehiclePositions fetched nowMs) lineId with
    | Some (northbound, southbound) =>
        Forall Track.onTrackOrNaN northbound
        /\ Forall Track.onTrackOrNaN southbound
        /\ (lineId <> "117N"%string ->
            Forall (eq (Track.Returns 50%float)) (northbound ++ southbound))
    | None => True
    end
    /\ Vehicles.renderVisualTrack
         (Vehicles.getVehiclePositions Api.Threw nowMs) lineId = None.
Proof.
  intros fetched nowMs lineId Hline. split; [|reflexivity].
  unfold Vehicles.renderVisualTrack.
  destruct (filter _ (Vehicles.Positions.vehicles _)) as [|v vs]; [trivial|].
  split; [|split].
  - apply Forall_forall. intros o Ho.
    apply in_map_iff in Ho. destruct Ho as (vehicle & <- & _).
    now apply configured_lines_return.
  - apply Forall_forall. intros o Ho.
    apply in_map_iff in Ho. destruct Ho as (vehicle & <- & _).
    now apply configured_lines_return.
  - intros Hother. apply Forall_forall. intros o Ho.
    apply in_app_or in Ho.
    destruct Ho as [Ho|Ho]; apply in_map_iff in Ho;
      destruct Ho as (vehicle & <- & _); symmetry;
      now apply configured_lines_return.
Qed.

(** Two N-line trains, one without a fix. *)
Lemma markers_on_track_or_NaN_witness :
  match Vehicles.renderVisualTrack
          (Vehicles.getVehiclePositions
             (Api.Ok {| Vehicles.Response.vehicles :=
                          Some [Examples.fix_at (Some 39.85%float)
                                                (Some (-104.98)%float);
                                Examples.fix_at None None];
                        Vehicles.Response.timestamp := None;
                        Vehicles.Response.feedAgeSeconds := None |})
             1000000)
          "117N" with
  | Some (northbound, southbound) =>
      Forall Track.onTrackOrNaN northbound
      /\ Forall Track.onTrackOrNaN southbound
      /\ ("117N"%string <> "117N"%string ->
          Forall (eq (Track.Returns 50%float)) (northbound ++ southbound))
  | None => True
  end.
Proof.
  apply (markers_on_track_or_NaN
           (Api.Ok {| Vehicles.Response.vehicles :=
                        Some [Examples.fix_at (Some 39.85%float)
                                              (Some (-104.98)%float);
                              Examples.fix_at None None];
                      Vehicles.Response.timestamp := None;
                      Vehicles.Response.feedAgeSeconds := None |})
           1000000 "117N").
  simpl. auto.
Defined.

(* ================================================================== *)
(** ** The G-line path end to end                                       *)
(* ================================================================== *)

Section PipelineFacts.
Context {A B : Type}.

End PipelineFacts.

Section RouteFacts.
Variable fmt : Z -> string.
Variable stopId : string.




End RouteFacts.



